(** * PCBmodE footprint expansion: [pcbmode/utils/footprint.py]

    A shallow embedding of the [Footprint] class: the parsed footprint
    document is a Python value, the methods [_process_pins],
    [_process_pours], [_process_shapes] and [_process_assembly_shapes]
    are functions in an exception monad, and the in-place updates the
    methods perform on the shape declarations of the document are threaded
    back into the document they were read from. *)

From Stdlib Require Import ZArith List String Bool Lia.
From Stdlib Require Import PrimFloat SpecFloat FloatOps.
Import ListNotations.
Open Scope string_scope.
Open Scope Z_scope.

Set Warnings "-register-all,-inexact-float".

(** ** Exceptions *)

Module Exn.

Inductive exn : Type :=
| KeyError
| IndexError
| TypeError
| AttributeError
| OverflowError.

(** [KeyError] and [IndexError] are the subclasses of [LookupError]. *)
Definition is_LookupError (e : exn) : bool :=
  match e with
  | KeyError | IndexError => true
  | _ => false
  end.

Inductive result (A : Type) : Type :=
| Ok (a : A)
| Raise (e : exn).

#[global] Arguments Ok {A} a.
#[global] Arguments Raise {A} e.

Definition bind {A B : Type} (m : result A) (k : A -> result B) : result B :=
  match m with
  | Ok a => k a
  | Raise e => Raise e
  end.

(** [try: m except: h], with a bare [except]. *)
Definition try_except {A : Type} (m : result A) (h : A) : A :=
  match m with
  | Ok a => a
  | Raise _ => h
  end.

(** A [for] loop whose body may raise: the accumulator is threaded from
    left to right and the first exception ends the loop. *)
Fixpoint for_each {A S : Type} (body : A -> S -> result S)
         (xs : list A) (s : S) : result S :=
  match xs with
  | [] => Ok s
  | x :: xs' => bind (body x s) (for_each body xs')
  end.

(** A [for] loop over the elements of a list whose body updates the element
    it visits in place: the updated elements are collected in order. *)
Fixpoint for_each_upd {A S : Type} (body : A -> S -> result (A * S))
         (xs : list A) (s : S) : result (list A * S) :=
  match xs with
  | [] => Ok ([], s)
  | x :: xs' =>
      bind (body x s) (fun '(x', s') =>
      bind (for_each_upd body xs' s') (fun '(xs'', s'') =>
      Ok (x' :: xs'', s'')))
  end.

End Exn.
Import Exn.

Notation "x <- m ;; k" := (bind m (fun x => k))
  (at level 61, m at next level, right associativity).
Notation "' p <- m ;; k" := (bind m (fun p => k))
  (at level 61, p pattern, m at next level, right associativity).

(** ** Dictionaries

    A Python [dict] keeps its keys in insertion order; a dictionary is an
    association list in that order, with at most one binding read per key. *)

Module Dict.

Definition dict (V : Type) : Type := list (string * V).

Fixpoint get {V : Type} (k : string) (d : dict V) : option V :=
  match d with
  | [] => None
  | (k', v) :: d' => if String.eqb k k' then Some v else get k d'
  end.

(** [d[k] = v]: an existing key keeps its position, a new key goes last. *)
Fixpoint set {V : Type} (k : string) (v : V) (d : dict V) : dict V :=
  match d with
  | [] => [(k, v)]
  | (k', v') :: d' =>
      if String.eqb k k' then (k', v) :: d' else (k', v') :: set k v d'
  end.

Definition keys {V : Type} (d : dict V) : list string := map fst d.

Definition mem {V : Type} (k : string) (d : dict V) : bool :=
  match get k d with Some _ => true | None => false end.

End Dict.

(** ** Python values *)

(** Numbers are Python's [int] (unbounded) and [float] (binary64). *)
Inductive number : Type :=
| NInt (z : Z)
| NFloat (f : float).

(** Modelled from the spec: the 2D point type of [pcbmode.utils.point]
    is missing from the sources; the spec describes it as a point/vector
    supplying addition and rotation.  A point is a pair of coordinates. *)
Record point : Type := mkPoint { px : number; py : number }.

Inductive value : Type :=
| VNone
| VBool (b : bool)
| VNum (n : number)
| VStr (s : string)
| VList (l : list value)
| VDict (d : list (string * value))
| VPoint (p : point).

Definition VInt (z : Z) : value := VNum (NInt z).
Definition VFloat (f : float) : value := VNum (NFloat f).

(** *** Arithmetic *)

(** [float(z)]: round to nearest even; an [int] beyond the range of binary64
    raises [OverflowError]. *)
Definition float_of_int (z : Z) : result float :=
  let f := SF2Prim (binary_normalize 53 1024 z 0 false) in
  if PrimFloat.is_infinity f then Raise OverflowError else Ok f.

Definition num_binop (fz : Z -> Z -> Z) (ff : float -> float -> float)
           (a b : number) : result number :=
  match a, b with
  | NInt x, NInt y => Ok (NInt (fz x y))
  | NInt x, NFloat y => x' <- float_of_int x ;; Ok (NFloat (ff x' y))
  | NFloat x, NInt y => y' <- float_of_int y ;; Ok (NFloat (ff x y'))
  | NFloat x, NFloat y => Ok (NFloat (ff x y))
  end.

Definition num_add : number -> number -> result number :=
  num_binop Z.add PrimFloat.add.

Definition num_mul : number -> number -> result number :=
  num_binop Z.mul PrimFloat.mul.

(** [bool] is a subclass of [int]. *)
Definition as_number (v : value) : option number :=
  match v with
  | VNum n => Some n
  | VBool b => Some (NInt (if b then 1 else 0))
  | _ => None
  end.

(** Modelled from the spec: [Point.__add__], coordinate by coordinate. *)
Definition point_add (p q : point) : result point :=
  x <- num_add (px p) (px q) ;;
  y <- num_add (py p) (py q) ;;
  Ok (mkPoint x y).

(** [a + b].  Numbers add, strings and lists concatenate, points add;
    anything else raises [TypeError]. *)
Definition py_add (a b : value) : result value :=
  match a, b with
  | VStr s, VStr t => Ok (VStr (s ++ t))
  | VList l, VList m => Ok (VList (l ++ m))
  | VPoint p, VPoint q => r <- point_add p q ;; Ok (VPoint r)
  | _, _ =>
      match as_number a, as_number b with
      | Some x, Some y => r <- num_add x y ;; Ok (VNum r)
      | _, _ => Raise TypeError
      end
  end.

Definition as_int (v : value) : option Z :=
  match as_number v with
  | Some (NInt z) => Some z
  | _ => None
  end.

Fixpoint str_times (n : nat) (s : string) : string :=
  match n with
  | O => ""
  | S n' => s ++ str_times n' s
  end.

Fixpoint list_times {A : Type} (n : nat) (l : list A) : list A :=
  match n with
  | O => []
  | S n' => l ++ list_times n' l
  end.

(** [a * b].  Numbers multiply; a string or a list times an [int] is
    repeated; anything else raises [TypeError]. *)
Definition py_mul (a b : value) : result value :=
  match a, b with
  | VStr s, _ =>
      match as_int b with
      | Some n => Ok (VStr (str_times (Z.to_nat n) s))
      | None => Raise TypeError
      end
  | VList l, _ =>
      match as_int b with
      | Some n => Ok (VList (list_times (Z.to_nat n) l))
      | None => Raise TypeError
      end
  | _, VStr s =>
      match as_int a with
      | Some n => Ok (VStr (str_times (Z.to_nat n) s))
      | None => Raise TypeError
      end
  | _, VList l =>
      match as_int a with
      | Some n => Ok (VList (list_times (Z.to_nat n) l))
      | None => Raise TypeError
      end
  | _, _ =>
      match as_number a, as_number b with
      | Some x, Some y => r <- num_mul x y ;; Ok (VNum r)
      | _, _ => Raise TypeError
      end
  end.

(** *** Truth value, [or] *)

Definition truthy (v : value) : bool :=
  match v with
  | VNone => false
  | VBool b => b
  | VNum (NInt z) => negb (z =? 0)
  | VNum (NFloat f) => negb (PrimFloat.eqb f 0%float)
  | VStr s => negb (String.eqb s "")
  | VList l => match l with [] => false | _ => true end
  | VDict d => match d with [] => false | _ => true end
  | VPoint _ => true
  end.

(** [a or b] *)
Definition py_or (a b : value) : value := if truthy a then a else b.

(** [v == s] for a string literal [s]. *)
Definition eq_str (v : value) (s : string) : bool :=
  match v with
  | VStr t => String.eqb t s
  | _ => false
  end.

(** *** Dictionary access *)

(** [d.get(k, default)]; only dictionaries have a [get] method. *)
Definition py_get (d : value) (k : string) (default : value) : result value :=
  match d with
  | VDict kv =>
      Ok (match Dict.get k kv with Some v => v | None => default end)
  | _ => Raise AttributeError
  end.

(** [d[k]] for a string key [k]. *)
Definition py_getitem (d : value) (k : string) : result value :=
  match d with
  | VDict kv =>
      match Dict.get k kv with Some v => Ok v | None => Raise KeyError end
  | _ => Raise TypeError
  end.

(** [i] as the position it denotes in a sequence of length [n]: a negative
    index counts from the end. *)
Definition position (i : Z) (n : nat) : option nat :=
  let j := if i <? 0 then i + Z.of_nat n else i in
  if (0 <=? j) && (j <? Z.of_nat n) then Some (Z.to_nat j) else None.

(** [d[key]] for a key that is itself a value.  The keys of a parsed
    document are strings, so any other hashable key is absent; lists and
    dictionaries are unhashable.  Lists and strings are indexed by [int]. *)
Definition py_subscript (d key : value) : result value :=
  match d, key with
  | VDict kv, VStr k => py_getitem d k
  | VDict _, (VList _ | VDict _) => Raise TypeError
  | VDict _, _ => Raise KeyError
  | VList l, _ =>
      match as_int key with
      | Some i =>
          match position i (List.length l) with
          | Some n =>
              match nth_error l n with
              | Some v => Ok v
              | None => Raise IndexError
              end
          | None => Raise IndexError
          end
      | None => Raise TypeError
      end
  | VStr s, _ =>
      match as_int key with
      | Some i =>
          match position i (String.length s) with
          | Some n =>
              match String.get n s with
              | Some c => Ok (VStr (String c EmptyString))
              | None => Raise IndexError
              end
          | None => Raise IndexError
          end
      | None => Raise TypeError
      end
  | _, _ => Raise TypeError
  end.

(** [d[k] = v] on a dictionary. *)
Definition py_setitem (d : value) (k : string) (v : value) : result value :=
  match d with
  | VDict kv => Ok (VDict (Dict.set k v kv))
  | _ => Raise TypeError
  end.

(** [d.copy()]: a shallow copy; dictionaries and lists have the method. *)
Definition py_copy (d : value) : result value :=
  match d with
  | VDict _ | VList _ => Ok d
  | _ => Raise AttributeError
  end.

Fixpoint chars (s : string) : list value :=
  match s with
  | EmptyString => []
  | String c s' => VStr (String c EmptyString) :: chars s'
  end.

(** [for x in v]: the elements of a list, the keys of a dictionary, the
    characters of a string. *)
Definition py_iter (v : value) : result (list value) :=
  match v with
  | VList l => Ok l
  | VDict d => Ok (map VStr (Dict.keys d))
  | VStr s => Ok (chars s)
  | _ => Raise TypeError
  end.

(** [d[key] = v] where [d[key]] was read before: the counterpart of
    [py_subscript] for storing an updated element back. *)
Fixpoint list_store (l : list value) (n : nat) (v : value) : list value :=
  match l, n with
  | [], _ => []
  | _ :: l', O => v :: l'
  | x :: l', S n' => x :: list_store l' n' v
  end.

Definition py_store (d key v : value) : value :=
  match d, key with
  | VDict kv, VStr k => if Dict.mem k kv then VDict (Dict.set k v kv) else d
  | VList l, _ =>
      match as_int key with
      | Some i =>
          match position i (List.length l) with
          | Some n => VList (list_store l n v)
          | None => d
          end
      | None => d
      end
  | _, _ => d
  end.

(** The object reached from [v] by the keys of [path] is replaced by [new];
    nothing changes when the path does not exist. *)
Fixpoint update_in (v : value) (path : list string) (new : value) : value :=
  match path with
  | [] => new
  | k :: rest =>
      match v with
      | VDict d =>
          match Dict.get k d with
          | Some c => VDict (Dict.set k (update_in c rest new) d)
          | None => v
          end
      | _ => v
      end
  end.

(** ** Points and shapes *)

(** Modelled from the spec: the constructor [Point(xy)] of the missing point
    type, from a two-element list of coordinates. *)
Definition Point (xy : value) : result point :=
  match xy with
  | VList [a; b] =>
      match as_number a, as_number b with
      | Some x, Some y => Ok (mkPoint x y)
      | _, _ => Raise TypeError
      end
  | _ => Raise TypeError
  end.

(** Modelled from the spec: the primitive kernel [pcbmode.utils.shape] is
    missing from the sources.  A shape instance records the declaration it
    was constructed from, with the attributes the declaration had at
    construction, and the label attached to the instance afterwards. *)
Record shape : Type := mkShape {
  shape_dict : value;
  label : option value;
  label_style_class : option string
}.

Definition Shape (d : value) : shape := mkShape d None None.

Definition set_label (l : value) (s : shape) : shape :=
  mkShape (shape_dict s) (Some l) (label_style_class s).

Definition set_label_style_class (c : string) (s : shape) : shape :=
  mkShape (shape_dict s) (label s) (Some c).

(** The attribute [k] a shape was constructed with. *)
Definition attr (k : string) (s : shape) : option value :=
  match shape_dict s with
  | VDict d => Dict.get k d
  | _ => None
  end.

(** The value a declaration gives to [k], or [default]. *)
Definition field (k : string) (default : value) (d : list (string * value))
  : value :=
  match Dict.get k d with
  | Some v => v
  | None => default
  end.

(** ** The shape accumulator [self._shapes] *)

Definition layer_shapes : Type := Dict.dict (list shape).
Definition sheet_shapes : Type := Dict.dict layer_shapes.

Definition init_shapes : sheet_shapes :=
  [ ("conductor", []); ("pours", []); ("soldermask", []);
    ("silkscreen", []); ("assembly", []); ("solderpaste", []);
    ("drills", []) ].

(** [self._shapes[sheet]]; the seven sheets are created by [__init__] and
    no other sheet name is ever used. *)
Definition sheet_of (shapes : sheet_shapes) (sheet : string) : layer_shapes :=
  match Dict.get sheet shapes with
  | Some m => m
  | None => []
  end.

(** The shapes of [sheet] on [layer], in insertion order. *)
Definition bucket (shapes : sheet_shapes) (sheet layer : string) : list shape :=
  match Dict.get layer (sheet_of shapes sheet) with
  | Some l => l
  | None => []
  end.

(** [if layer in self._shapes[sheet]: ...append(s) else: ... = [s]] *)
Definition append_shape (sheet layer : string) (s : shape)
           (shapes : sheet_shapes) : sheet_shapes :=
  let by_layer := sheet_of shapes sheet in
  match Dict.get layer by_layer with
  | Some l => Dict.set sheet (Dict.set layer (l ++ [s])%list by_layer) shapes
  | None => Dict.set sheet (Dict.set layer [s] by_layer) shapes
  end.


(** How many times a loop over [layers] visits the layer [l]. *)
Definition visits (l : string) (layers : list string) : nat :=
  List.length (filter (String.eqb l) layers).

(** Only the buckets of [sheet] may differ between [S] and [S']. *)
Definition only_sheet (sheet : string) (S S' : sheet_shapes) : Prop :=
  forall sheet' layer',
    sheet' <> sheet -> bucket S' sheet' layer' = bucket S sheet' layer'.

(** ** External collaborators *)

Record Collaborators : Type := {
  (** [utils.getExtendedLayerList]: logical layers to physical layers *)
  getExtendedLayerList : value -> list string;
  (** [Point.rotate], which updates the point it is called on *)
  rotate : point -> value -> result point;
  (** [Shape.get_type] *)
  get_type : shape -> value;
  (** [Shape.getScale] *)
  getScale : shape -> value;
  (** [config.cfg] *)
  cfg : value
}.

(** ** The class [Footprint] *)

Section Footprint.

Variable env : Collaborators.

Definition origin : value := VList [VInt 0; VInt 0].

(** *** [_process_pins], innermost loops first *)

(** Lines 163-183: one declaration [sdict_] of a custom soldermask or
    solderpaste shape.  [shape_loc] is rotated in place and never read
    again; the location stored in the copy is built from [shape_loc_p],
    the location of the pad shape. *)
Definition custom_shape (sheet layer : string) (pin_loc_p shape_loc_p : point)
           (pin_rotate : value) (sdict_ : value)
           (shapes : sheet_shapes) : result sheet_shapes :=
  sdict <- py_copy sdict_ ;;
  loc <- py_get sdict "location" origin ;;
  shape_loc <- Point loc ;;
  r <- py_get sdict "rotate" (VInt 0) ;;
  r' <- py_add r pin_rotate ;;
  sdict <- py_setitem sdict "rotate" r' ;;
  shape_loc <- rotate env shape_loc pin_rotate ;;
  l <- point_add shape_loc_p pin_loc_p ;;
  sdict <- py_setitem sdict "location" (VPoint l) ;;
  let sshape := Shape sdict in
  Ok (append_shape sheet layer sshape shapes).

(** [sdict[k] += cfg_def[rule]]: the target is read first.  The dimensions
    of a declaration are numbers, for which [+=] stores a new value in the
    copy; a list would be extended in place, which is not tracked here. *)
Definition add_buffer (sdict : value) (k : string) (cfg_def : value)
           (rule : string) : result value :=
  old <- py_getitem sdict k ;;
  buffer <- py_getitem cfg_def rule ;;
  new <- py_add old buffer ;;
  py_setitem sdict k new.

(** Lines 127-138: the modifier applied to the copy, by shape type. *)
Definition apply_modifier (pad_shape : shape) (cfg_def sdict : value)
  : result value :=
  let shape_type := get_type env pad_shape in
  if eq_str shape_type "path" then
    scale <- py_getitem cfg_def "path-scale" ;;
    v <- py_mul (getScale env pad_shape) scale ;;
    py_setitem sdict "scale" v
  else if eq_str shape_type "rect" then
    sdict <- add_buffer sdict "width" cfg_def "rect-buffer" ;;
    add_buffer sdict "height" cfg_def "rect-buffer"
  else if eq_str shape_type "circle" then
    add_buffer sdict "diameter" cfg_def "circle-buffer"
  else
    Ok sdict.

(** Lines 118-147: no custom specification, the default shape. *)
Definition default_shape (sheet layer : string) (shape_dict : value)
           (pad_shape : shape) (shapes : sheet_shapes) : result sheet_shapes :=
  sdict <- py_copy shape_dict ;;
  distances <- py_getitem (cfg env) "distances" ;;
  cfg_def <- py_getitem distances sheet ;;
  sdict <- apply_modifier pad_shape cfg_def sdict ;;
  let sshape := Shape sdict in
  Ok (append_shape sheet layer sshape shapes).

(** Lines 112-183: the body of [for sheet in ["soldermask", "solderpaste"]]. *)
Definition process_sheet (layer : string) (pin_loc_p shape_loc_p : point)
           (pin_rotate shape_dict : value) (pad_shape : shape)
           (sheet : string) (shapes : sheet_shapes) : result sheet_shapes :=
  sdict_list <- py_get shape_dict sheet VNone ;;
  match sdict_list with
  | VNone => default_shape sheet layer shape_dict pad_shape shapes
  | VDict [] | VList [] => Ok shapes
  | _ =>
      let sdict_list :=
        match sdict_list with
        | VDict _ => VList [sdict_list]
        | _ => sdict_list
        end in
      items <- py_iter sdict_list ;;
      for_each (custom_shape sheet layer pin_loc_p shape_loc_p pin_rotate)
               items shapes
  end.

(** [x is True] *)
Definition is_True (v : value) : bool :=
  match v with
  | VBool true => true
  | _ => false
  end.

(** Lines 95-183: the body of [for layer in layers]. *)
Definition process_layer (pin_name pin_dict : value)
           (pin_loc_p shape_loc_p : point) (pin_rotate shape_dict : value)
           (layer : string) (shapes : sheet_shapes) : result sheet_shapes :=
  let pad_shape := Shape shape_dict in
  show <- py_get pin_dict "show-label" (VBool true) ;;
  pad_shape <-
    (if is_True show then
       l <- py_get pin_dict "label" pin_name ;;
       Ok (set_label_style_class "pad-labels" (set_label l pad_shape))
     else Ok pad_shape) ;;
  let shapes := append_shape "conductor" layer pad_shape shapes in
  for_each (process_sheet layer pin_loc_p shape_loc_p pin_rotate
                          shape_dict pad_shape)
           ["soldermask"; "solderpaste"] shapes.

(** Lines 85-88: [shape_loc] itself when it is a point already, as an
    earlier pass over the declaration leaves it, and [Point(shape_loc)]
    otherwise. *)
Definition as_point (shape_loc : value) : result point :=
  match shape_loc with
  | VPoint p => Ok p
  | _ => Point shape_loc
  end.

(** Lines 76-183: the body of [for shape_dict in shapes].  The location and
    the rotation are assigned on [shape_dict] itself, an element of the
    pad's list of shapes; the updated declaration is returned with the
    accumulator. *)
Definition process_pad_shape (pin_name pin_dict : value) (pin_loc_p : point)
           (pin_rotate : value) (shape_dict : value)
           (shapes : sheet_shapes) : result (value * sheet_shapes) :=
  ls <- py_get shape_dict "layers" (VList [VStr "top"]) ;;
  let layers := getExtendedLayerList env ls in
  shape_loc <- py_get shape_dict "location" origin ;;
  shape_loc_p <- as_point shape_loc ;;
  l <- point_add pin_loc_p shape_loc_p ;;
  shape_dict <- py_setitem shape_dict "location" (VPoint l) ;;
  r <- py_get shape_dict "rotate" (VInt 0) ;;
  r' <- py_add r pin_rotate ;;
  shape_dict <- py_setitem shape_dict "rotate" r' ;;
  shapes <- for_each (process_layer pin_name pin_dict pin_loc_p shape_loc_p
                                    pin_rotate shape_dict)
                     layers shapes ;;
  Ok (shape_dict, shapes).

(** Lines 186-196: the body of [for drill_dict in drills]. *)
Definition process_drill (pin_loc_p : point) (drill_dict : value)
           (shapes : sheet_shapes) : result sheet_shapes :=
  drill_dict <- py_copy drill_dict ;;
  t <- py_get drill_dict "type" VNone ;;
  drill_dict <- py_setitem drill_dict "type" (py_or t (VStr "drill")) ;;
  loc <- py_get drill_dict "location" origin ;;
  drill_loc_p <- Point loc ;;
  l <- point_add drill_loc_p pin_loc_p ;;
  drill_dict <- py_setitem drill_dict "location" (VPoint l) ;;
  let shape := Shape drill_dict in
  Ok (append_shape "drills" "top" shape shapes).

(** The elements of a list that a loop has updated in place are stored
    back; the elements of any other iterable are fresh strings. *)
Definition updated (iterable : value) (items : list value) : value :=
  match iterable with
  | VList _ => VList items
  | _ => iterable
  end.

(** Lines 67-196: the body of [for pin_name in pins_dict].  The state is the
    pad table, whose shape declarations the loop over the shapes updates,
    and the accumulator. *)
Definition process_pin (pins_dict : value) (pin_name : value)
           (st : value * sheet_shapes) : result (value * sheet_shapes) :=
  let '(pads_dict, shapes_acc) := st in
  pin <- py_subscript pins_dict pin_name ;;
  pin_dict <- py_getitem pin "layout" ;;
  loc <- py_get pin_dict "location" origin ;;
  pin_loc_p <- Point loc ;;
  pad_name <- py_getitem pin_dict "pad" ;;
  pad_dict <- py_subscript pads_dict pad_name ;;
  pin_rotate <- py_get pin_dict "rotate" (VInt 0) ;;
  shapes <- py_get pad_dict "shapes" (VList []) ;;
  items <- py_iter shapes ;;
  '(items', shapes_acc) <-
    for_each_upd (process_pad_shape pin_name pin_dict pin_loc_p pin_rotate)
                 items shapes_acc ;;
  let pad_dict := py_store pad_dict (VStr "shapes") (updated shapes items') in
  let pads_dict := py_store pads_dict pad_name pad_dict in
  drills <- py_get pad_dict "drills" (VList []) ;;
  ditems <- py_iter drills ;;
  shapes_acc <- for_each (process_drill pin_loc_p) ditems shapes_acc ;;
  Ok (pads_dict, shapes_acc).

Definition _process_pins (footprint : value) (shapes : sheet_shapes)
  : result (value * sheet_shapes) :=
  pins_dict <- py_get footprint "pins" (VDict []) ;;
  pads_dict <- py_get footprint "pads" (VDict []) ;;
  names <- py_iter pins_dict ;;
  '(pads_dict, shapes) <-
    for_each (process_pin pins_dict) names (pads_dict, shapes) ;;
  Ok (py_store footprint (VStr "pads") pads_dict, shapes).

(** *** The direct importers *)

(** [for layer in layers: shape = Shape(shape_dict); ...append(shape)] *)
Definition place_on_layers (sheet : string) (shape_dict : value)
           (layers : list string) (shapes : sheet_shapes) : sheet_shapes :=
  fold_left (fun acc layer => append_shape sheet layer (Shape shape_dict) acc)
            layers shapes.

(** Lines 207-215 and 253-261: the body of [for shape_dict in shapes] of
    [_process_pours] ([key] is ["layers"]) and of
    [_process_assembly_shapes] ([key] is ["layer"]). *)
Definition import_shape (sheet key : string) (shape_dict : value)
           (shapes : sheet_shapes) : result sheet_shapes :=
  ls <- py_get shape_dict key VNone ;;
  let layers := getExtendedLayerList env (py_or ls (VList [VStr "top"])) in
  Ok (place_on_layers sheet shape_dict layers shapes).

Definition lookup3 (d : value) (k1 k2 k3 : string) : result value :=
  a <- py_getitem d k1 ;;
  b <- py_getitem a k2 ;;
  py_getitem b k3.

Definition _process_pours (footprint : value) (shapes : sheet_shapes)
  : result sheet_shapes :=
  match lookup3 footprint "layout" "pours" "shapes" with
  | Raise _ => Ok shapes
  | Ok decls =>
      items <- py_iter decls ;;
      for_each (import_shape "pours" "layers") items shapes
  end.

Definition _process_assembly_shapes (footprint : value) (shapes : sheet_shapes)
  : result sheet_shapes :=
  match lookup3 footprint "layout" "assembly" "shapes" with
  | Raise _ => Ok shapes
  | Ok decls =>
      items <- py_iter decls ;;
      for_each (import_shape "assembly" "layer") items shapes
  end.

(** Lines 232-243: the body of [for layer in layers] of [_process_shapes];
    the mirror flag is assigned on [shape_dict] itself. *)
Definition import_on_layer (sheet : string) (layer : string)
           (st : value * sheet_shapes) : result (value * sheet_shapes) :=
  let '(shape_dict, shapes) := st in
  shape_dict <-
    (if String.eqb layer "bottom" then
       t <- py_getitem shape_dict "type" ;;
       if eq_str t "text" then
         m <- py_get shape_dict "mirror" VNone ;;
         py_setitem shape_dict "mirror" (py_or m (VStr "True"))
       else Ok shape_dict
     else Ok shape_dict) ;;
  let shape := Shape shape_dict in
  Ok (shape_dict, append_shape sheet layer shape shapes).

(** Lines 230-243: the body of [for shape_dict in shapes]. *)
Definition import_sheet_shape (sheet : string) (shape_dict : value)
           (shapes : sheet_shapes) : result (value * sheet_shapes) :=
  ls <- py_get shape_dict "layers" VNone ;;
  let layers := getExtendedLayerList env (py_or ls (VList [VStr "top"])) in
  for_each (import_on_layer sheet) layers (shape_dict, shapes).

(** Lines 223-243: the body of [for sheet in sheets].  A list with elements
    is the list of the document itself, whose elements the loop updates; an
    empty list, the document's or the fresh one of [or []], has no element
    to update. *)
Definition process_sheet_shapes (sheet : string) (st : value * sheet_shapes)
  : result (value * sheet_shapes) :=
  let '(footprint, shapes) := st in
  let decls :=
    try_except (v <- lookup3 footprint "layout" sheet "shapes" ;;
                Ok (py_or v (VList [])))
               (VList []) in
  items <- py_iter decls ;;
  '(items', shapes) <- for_each_upd (import_sheet_shape sheet) items shapes ;;
  let footprint :=
    match decls with
    | VList (_ :: _) =>
        update_in footprint ["layout"; sheet; "shapes"] (VList items')
    | _ => footprint
    end in
  Ok (footprint, shapes).

Definition _process_shapes (footprint : value) (shapes : sheet_shapes)
  : result (value * sheet_shapes) :=
  let sheets := ["conductor"; "silkscreen"; "soldermask"] in
  for_each process_sheet_shapes sheets (footprint, shapes).

(** *** [__init__] and [get_shapes]

    [Footprint footprint] is the construction [Footprint(footprint)]: when
    no exception is raised it gives the document as the construction leaves
    it and the collection [get_shapes()] returns.  When the construction
    raises there is no object and no collection. *)
Definition Footprint (footprint : value) : result (value * sheet_shapes) :=
  '(footprint, shapes) <- _process_pins footprint init_shapes ;;
  shapes <- _process_pours footprint shapes ;;
  '(footprint, shapes) <- _process_shapes footprint shapes ;;
  shapes <- _process_assembly_shapes footprint shapes ;;
  Ok (footprint, shapes).

Definition get_shapes (footprint : value) : result sheet_shapes :=
  '(_, shapes) <- Footprint footprint ;; Ok shapes.

End Footprint.

(** The pad table a state of the loop over the pins holds has no pad [k]. *)
Definition lacks_pad (k : string) (st : value * sheet_shapes) : Prop :=
  exists kv, fst st = VDict kv /\ Dict.get k kv = None.

(** The attribute [k] of the shapes a construction has put on [sheet] and
    [layer], in the order of the bucket. *)
Definition placed (k sheet layer : string)
           (r : result (value * sheet_shapes)) : list (option value) :=
  match r with
  | Ok (_, shapes) => map (attr k) (bucket shapes sheet layer)
  | Raise _ => []
  end.

Definition at_ (x y : Z) : option value :=
  Some (VPoint (mkPoint (NInt x) (NInt y))).

(** The document as a construction leaves it. *)
Definition document_after (r : result (value * sheet_shapes)) : option value :=
  match r with
  | Ok (footprint, _) => Some footprint
  | Raise _ => None
  end.

(** [S'] is [S] with shapes appended to buckets of the sheets [sheets]:
    every bucket of [S'] starts with the bucket of [S], in the same order,
    and the buckets of the other sheets are the same. *)
Definition appends_to (sheets : list string) (S S' : sheet_shapes) : Prop :=
  (forall sheet l, exists news,
      bucket S' sheet l = (bucket S sheet l ++ news)%list)
  /\ (forall sheet l,
         ~ In sheet sheets -> bucket S' sheet l = bucket S sheet l).

(** The sheets the shapes of a pad are put on. *)
Definition pad_sheets : list string :=
  ["conductor"; "soldermask"; "solderpaste"].

(** The sheets the pin expander writes to. *)
Definition pin_sheets : list string :=
  ["conductor"; "soldermask"; "solderpaste"; "drills"].

(** The sheets the importer of [_process_shapes] writes to. *)
Definition direct_sheets : list string :=
  ["conductor"; "silkscreen"; "soldermask"].

(** A shape without a label. *)
Definition unlabelled (sh : shape) : Prop :=
  label sh = None /\ label_style_class sh = None.

(** [env] with another configuration and other type and scale queries. *)
Definition reconfigured (env : Collaborators) (get_type' getScale' : shape -> value)
           (cfg' : value) : Collaborators :=
  {| getExtendedLayerList := getExtendedLayerList env;
     rotate := rotate env;
     get_type := get_type';
     getScale := getScale';
     cfg := cfg' |}.

(** The document [b] is the document [a] but for the sections [ks]. *)
Definition same_but (ks : list string) (a b : value) : Prop :=
  forall fa, a = VDict fa ->
    exists fb, b = VDict fb
               /\ forall k, ~ In k ks -> Dict.get k fb = Dict.get k fa.




(** A declaration whose [key] (["layers"] or ["layer"]) is absent or has a
    false truth value. *)
Definition falsy_layers (key : string) (v : value) : Prop :=
  exists d, v = VDict d /\ truthy (field key VNone d) = false.

(** A pad shape declaration whose ["layers"] is the empty list. *)
Definition no_layers (v : value) : Prop :=
  exists d, v = VDict d /\ Dict.get "layers" d = Some (VList []).

(** Each declaration of [decls], in order, instantiated as it is and
    appended to the bucket of [sheet] on the top layer. *)
Definition top_placed (sheet : string) (decls : list value)
           (S : sheet_shapes) : sheet_shapes :=
  fold_left (fun acc decl => append_shape sheet "top" (Shape decl) acc)
            decls S.

(** ** A reference configuration and sample documents *)

Module Sample.

(** Modelled from the spec: [utils.getExtendedLayerList] is missing from
    the sources; the spec says it returns the ordered sequence of physical
    layers a token or list of tokens denotes.  The names of physical layers
    denote themselves. *)
Definition layer_names (v : value) : list string :=
  match v with
  | VList l =>
      flat_map (fun x => match x with VStr s => [s] | _ => [] end) l
  | VStr s => [s]
  | _ => []
  end.

(** Modelled from the spec: the type and scale queries of the missing shape
    kernel read the declaration's type tag and scale factor. *)
Definition type_tag (s : shape) : value :=
  match attr "type" s with
  | Some t => t
  | None => VNone
  end.

Definition scale_factor (s : shape) : value :=
  match attr "scale" s with
  | Some f => py_or f (VInt 1)
  | None => VInt 1
  end.

(** The distances of the configuration, with the rect buffer of the
    spec's scenario. *)
Definition distances : value :=
  VDict [ ("soldermask",
           VDict [ ("path-scale", VInt 1);
                   ("rect-buffer", VFloat 0.1);
                   ("circle-buffer", VFloat 0.1) ]);
          ("solderpaste",
           VDict [ ("path-scale", VInt 1);
                   ("rect-buffer", VInt 0);
                   ("circle-buffer", VInt 0) ]) ].

(** [rotate] is called for the declared soldermask and solderpaste shapes
    only; the pins of the one sample that declares such a shape are not
    rotated, and a rotation by 0 leaves a point where it is. *)
Definition env : Collaborators := {|
  getExtendedLayerList := layer_names;
  rotate := fun p _ => Ok p;
  get_type := type_tag;
  getScale := scale_factor;
  cfg := VDict [("distances", distances)]
|}.

Definition pin (x y : Z) (pad : string) : value :=
  VDict [("layout", VDict [ ("location", VList [VInt x; VInt y]);
                            ("pad", VStr pad) ])].

Definition rect (w h : Z) : list (string * value) :=
  [ ("type", VStr "rect"); ("width", VInt w); ("height", VInt h) ].

(** The scenario of the spec: one pin at (10, 0) on a pad with one rect of
    width 1 and height 1 on the layers top and bottom. *)
Definition scenario : value :=
  VDict [ ("pins", VDict [("P1", pin 10 0 "PAD1")]);
          ("pads",
           VDict [("PAD1",
                   VDict [("shapes",
                           VList [VDict (rect 1 1 ++
                                         [ ("location", origin);
                                           ("layers", VList [VStr "top";
                                                             VStr "bottom"])
                                         ])%list])])]) ].

(** Two pins, at (10, 0) and at (20, 0), on the same pad; the pad has one
    rect at the local offset (1, 0), without soldermask or solderpaste. *)
Definition pad_shape_decl : value :=
  VDict (rect 1 1 ++ [ ("location", VList [VInt 1; VInt 0]);
                       ("soldermask", VList []);
                       ("solderpaste", VList []) ])%list.

Definition two_pins : value :=
  VDict [ ("pins", VDict [ ("P1", pin 10 0 "PAD1");
                           ("P2", pin 20 0 "PAD1") ]);
          ("pads", VDict [("PAD1", VDict [("shapes", VList [pad_shape_decl])])])
        ].

(** Two pins, both rotated by 90, at (10, 0) and at (20, 0), on the same
    pad. *)
Definition rotated_pin (x y r : Z) (pad : string) : value :=
  VDict [("layout", VDict [ ("location", VList [VInt x; VInt y]);
                            ("rotate", VInt r);
                            ("pad", VStr pad) ])].

Definition two_rotated_pins : value :=
  VDict [ ("pins", VDict [ ("P1", rotated_pin 10 0 90 "PAD1");
                           ("P2", rotated_pin 20 0 90 "PAD1") ]);
          ("pads", VDict [("PAD1", VDict [("shapes", VList [pad_shape_decl])])])
        ].

(** [two_pins] as the construction leaves it: the rect of the pad carries
    the location (31, 0). *)
Definition two_pins_after : value :=
  VDict [ ("pins", VDict [ ("P1", pin 10 0 "PAD1");
                           ("P2", pin 20 0 "PAD1") ]);
          ("pads",
           VDict [("PAD1",
                   VDict [("shapes",
                           VList [VDict (rect 1 1 ++
                                         [ ("location",
                                            VPoint (mkPoint (NInt 31) (NInt 0)));
                                           ("soldermask", VList []);
                                           ("solderpaste", VList []);
                                           ("rotate", VInt 0) ])%list])])])
        ].

(** The same two pins; the rect of the pad now declares its soldermask
    shape, a rect at the local offset (5, 5). *)
Definition mask_decl : value :=
  VDict (rect 2 2 ++ [ ("location", VList [VInt 5; VInt 5]) ])%list.

Definition masked_shape_decl : value :=
  VDict (rect 1 1 ++ [ ("location", VList [VInt 1; VInt 0]);
                       ("soldermask", VList [mask_decl]);
                       ("solderpaste", VList []) ])%list.

Definition two_pins_masked : value :=
  VDict [ ("pins", VDict [ ("P1", pin 10 0 "PAD1");
                           ("P2", pin 20 0 "PAD1") ]);
          ("pads",
           VDict [("PAD1", VDict [("shapes", VList [masked_shape_decl])])]) ].

(** A pin that names a pad the pad table does not have. *)
Definition dangling : value :=
  VDict [ ("pins", VDict [ ("P1", pin 10 0 "PAD1");
                           ("P2", pin 20 0 "PAD9") ]);
          ("pads", VDict [("PAD1", VDict [("shapes", VList [pad_shape_decl])])])
        ].

(** Silkscreen text. *)
Definition text (attrs : list (string * value)) : value :=
  VDict ([ ("type", VStr "text"); ("value", VStr "R1") ] ++ attrs)%list.

Definition silkscreen (decls : list value) : value :=
  VDict [("layout", VDict [("silkscreen", VDict [("shapes", VList decls)])])].

(** Text on the bottom layer whose author set the mirror flag to false. *)
Definition unmirrored_bottom_text : value :=
  silkscreen [text [ ("mirror", VBool false);
                     ("layers", VList [VStr "bottom"]) ]].

(** Text on the bottom layer and on the top layer, without a mirror flag. *)
Definition bottom_and_top_text : value :=
  silkscreen [text [("layers", VList [VStr "bottom"; VStr "top"])]].

(** A drill of diameter 1 at the local offset (0, 2). *)
Definition drill_decl : list (string * value) :=
  [ ("diameter", VInt 1); ("location", VList [VInt 0; VInt 2]) ].

(** A footprint with every section: one pin with a drilled pad, a pour, a
    conductor shape, silkscreen text on the bottom layer and an assembly
    shape. *)
Definition full : value :=
  VDict [ ("pins", VDict [("P1", pin 10 0 "PAD1")]);
          ("pads",
           VDict [("PAD1",
                   VDict [ ("shapes", VList [VDict (rect 1 1)]);
                           ("drills", VList [VDict drill_decl]) ])]);
          ("layout",
           VDict [ ("pours",
                    VDict [("shapes", VList [VDict [("type", VStr "layer")]])]);
                   ("conductor",
                    VDict [("shapes", VList [VDict (rect 3 3)])]);
                   ("silkscreen",
                    VDict [("shapes",
                            VList [text [("layers", VList [VStr "bottom"])]])]);
                   ("assembly",
                    VDict [("shapes",
                            VList [VDict (rect 5 5 ++
                                          [("layer", VList [VStr "top"])])%list
                                  ])]) ]) ].

(** The state a run ends in, or [fallback] when it raised. *)
Definition outcome {A : Type} (r : result A) (fallback : A) : A :=
  match r with
  | Ok a => a
  | Raise _ => fallback
  end.

End Sample.

(** * Properties *)

(** ** Dictionaries *)

Lemma get_set_same {V : Type} (k : string) (v : V) (d : Dict.dict V) :
  Dict.get k (Dict.set k v d) = Some v.
Proof.
  induction d as [|[k' v'] d IH]; simpl.
  - now rewrite String.eqb_refl.
  - destruct (String.eqb k k') eqn:E; simpl; rewrite E; auto.
Qed.

Lemma get_set_other {V : Type} (k k' : string) (v : V) (d : Dict.dict V) :
  k <> k' -> Dict.get k' (Dict.set k v d) = Dict.get k' d.
Proof.
  intros Hne. induction d as [|[k0 v0] d IH]; simpl.
  - destruct (String.eqb k' k) eqn:E; auto.
    apply String.eqb_eq in E. congruence.
  - destruct (String.eqb k k0) eqn:E; simpl.
    + apply String.eqb_eq in E. subst k0.
      destruct (String.eqb k' k) eqn:E'; auto.
      apply String.eqb_eq in E'. congruence.
    + destruct (String.eqb k' k0); auto.
Qed.

Lemma set_get_id {V : Type} (k : string) (v : V) (d : Dict.dict V) :
  Dict.get k d = Some v -> Dict.set k v d = d.
Proof.
  induction d as [|[k' v'] d IH]; simpl; [discriminate|].
  destruct (String.eqb k k') eqn:E; intros H.
  - congruence.
  - now rewrite IH.
Qed.

Lemma get_In_keys {V : Type} (k : string) (v : V) (d : Dict.dict V) :
  Dict.get k d = Some v -> In k (Dict.keys d).
Proof.
  induction d as [|[k' v'] d IH]; simpl; [discriminate|].
  destruct (String.eqb k k') eqn:E; intros H.
  - apply String.eqb_eq in E. now left.
  - right. now apply IH.
Qed.

(** ** The accumulator *)

Lemma bucket_append_same (sheet layer : string) (s : shape) (S : sheet_shapes) :
  bucket (append_shape sheet layer s S) sheet layer
  = (bucket S sheet layer ++ [s])%list.
Proof.
  unfold bucket, append_shape.
  destruct (Dict.get layer (sheet_of S sheet)) as [l|] eqn:E;
    unfold sheet_of at 1; rewrite !get_set_same; reflexivity.
Qed.

Lemma bucket_append_other (sheet layer sheet' layer' : string) (s : shape)
      (S : sheet_shapes) :
  sheet' <> sheet \/ layer' <> layer ->
  bucket (append_shape sheet layer s S) sheet' layer' = bucket S sheet' layer'.
Proof.
  intros H. unfold bucket, append_shape.
  destruct (string_dec sheet' sheet) as [->|Hs].
  - destruct H as [H|H]; [congruence|].
    destruct (Dict.get layer (sheet_of S sheet)) as [l|] eqn:E;
      unfold sheet_of at 1; rewrite get_set_same;
      rewrite get_set_other by congruence; reflexivity.
  - destruct (Dict.get layer (sheet_of S sheet)) as [l|] eqn:E;
      unfold sheet_of at 1; rewrite get_set_other by congruence;
      reflexivity.
Qed.

Lemma bucket_append (sheet layer l : string) (s : shape) (S : sheet_shapes) :
  bucket (append_shape sheet layer s S) sheet l
  = if String.eqb l layer then (bucket S sheet l ++ [s])%list
    else bucket S sheet l.
Proof.
  destruct (String.eqb l layer) eqn:E.
  - apply String.eqb_eq in E. subst l. apply bucket_append_same.
  - apply String.eqb_neq in E. apply bucket_append_other. now right.
Qed.


Lemma only_sheet_refl (sheet : string) (S : sheet_shapes) :
  only_sheet sheet S S.
Proof. intros sheet' layer' _. reflexivity. Qed.

Lemma only_sheet_trans (sheet : string) (S1 S2 S3 : sheet_shapes) :
  only_sheet sheet S1 S2 -> only_sheet sheet S2 S3 -> only_sheet sheet S1 S3.
Proof.
  intros H12 H23 sheet' layer' Hne.
  rewrite (H23 _ _ Hne). now apply H12.
Qed.

Lemma only_sheet_append (sheet layer : string) (s : shape) (S : sheet_shapes) :
  only_sheet sheet S (append_shape sheet layer s S).
Proof.
  intros sheet' layer' Hne. apply bucket_append_other. now left.
Qed.

(** ** Loops and exceptions *)

Lemma bind_Ok_inv {A B : Type} (m : result A) (k : A -> result B) (b : B) :
  bind m k = Ok b -> exists a, m = Ok a /\ k a = Ok b.
Proof.
  destruct m as [a|e]; simpl; [|discriminate]. intros H. now exists a.
Qed.

Ltac bind_inv H :=
  let x := fresh "x" in
  let Hx := fresh "Hx" in
  apply bind_Ok_inv in H; destruct H as [x [Hx H]].

Lemma for_each_preserves {A S : Type} (R : S -> S -> Prop)
      (body : A -> S -> result S) :
  (forall s, R s s) ->
  (forall a b c, R a b -> R b c -> R a c) ->
  (forall x s s', body x s = Ok s' -> R s s') ->
  forall xs s s', for_each body xs s = Ok s' -> R s s'.
Proof.
  intros Hrefl Htrans Hbody xs.
  induction xs as [|x xs IH]; simpl; intros s s' H.
  - injection H as <-. apply Hrefl.
  - bind_inv H. eapply Htrans; eauto.
Qed.

Lemma for_each_app {A S : Type} (body : A -> S -> result S)
      (xs ys : list A) (s : S) :
  for_each body (xs ++ ys) s = bind (for_each body xs s) (for_each body ys).
Proof.
  revert s. induction xs as [|x xs IH]; simpl; intros s; [reflexivity|].
  destruct (body x s); simpl; auto.
Qed.

Lemma for_each_raises {A S : Type} (P : S -> Prop)
      (body : A -> S -> result S) (x0 : A) :
  (forall x s s', body x s = Ok s' -> P s -> P s') ->
  (forall s, P s -> exists e, body x0 s = Raise e) ->
  forall xs s, In x0 xs -> P s -> exists e, for_each body xs s = Raise e.
Proof.
  intros Hkeep Hraise xs.
  induction xs as [|x xs IH]; simpl; intros s Hin HP; [contradiction|].
  destruct Hin as [->|Hin].
  - destruct (Hraise s HP) as [e He]. rewrite He. now exists e.
  - destruct (body x s) as [s'|e] eqn:E; simpl.
    + apply IH; eauto.
    + now exists e.
Qed.

(** ** The protective sheets of one layer *)

Lemma eq_str_true (v : value) (s : string) :
  eq_str v s = true -> v = VStr s.
Proof.
  destruct v; simpl; try discriminate.
  intros H. apply String.eqb_eq in H. now subst.
Qed.

Lemma add_buffer_run (d : list (string * value)) (k : string)
      (cfg_def : value) (rule : string) (old buffer new : value) :
  Dict.get k d = Some old ->
  py_getitem cfg_def rule = Ok buffer ->
  py_add old buffer = Ok new ->
  add_buffer (VDict d) k cfg_def rule = Ok (VDict (Dict.set k new d)).
Proof.
  intros Hold Hbuf Hadd. unfold add_buffer.
  cbn [py_getitem]. rewrite Hold. cbn [bind].
  rewrite Hbuf. cbn [bind]. rewrite Hadd. reflexivity.
Qed.


Lemma process_sheet_default (env : Collaborators) (layer : string)
      (pin_loc_p shape_loc_p : point) (pin_rotate : value)
      (d : list (string * value)) (pad_shape : shape) (sheet : string)
      (S : sheet_shapes) :
  field sheet VNone d = VNone ->
  process_sheet env layer pin_loc_p shape_loc_p pin_rotate (VDict d)
                pad_shape sheet S
  = default_shape env sheet layer (VDict d) pad_shape S.
Proof.
  intros Hnone. unfold process_sheet. cbn [py_get bind].
  fold (field sheet VNone d). now rewrite Hnone.
Qed.

Lemma custom_shape_appends (env : Collaborators) (sheet layer : string)
      (pin_loc_p shape_loc_p : point) (pin_rotate sdict_ : value)
      (S S' : sheet_shapes) :
  custom_shape env sheet layer pin_loc_p shape_loc_p pin_rotate sdict_ S
  = Ok S' ->
  exists s, S' = append_shape sheet layer s S.
Proof.
  unfold custom_shape. intros H.
  repeat bind_inv H. injection H as <-. eauto.
Qed.

Lemma default_shape_appends (env : Collaborators) (sheet layer : string)
      (shape_dict : value) (pad_shape : shape) (S S' : sheet_shapes) :
  default_shape env sheet layer shape_dict pad_shape S = Ok S' ->
  exists s, S' = append_shape sheet layer s S.
Proof.
  unfold default_shape. intros H.
  repeat bind_inv H. injection H as <-. eauto.
Qed.

Lemma process_sheet_frame (env : Collaborators) (layer : string)
      (pin_loc_p shape_loc_p : point) (pin_rotate shape_dict : value)
      (pad_shape : shape) (sheet : string) (S S' : sheet_shapes) :
  process_sheet env layer pin_loc_p shape_loc_p pin_rotate shape_dict
                pad_shape sheet S = Ok S' ->
  only_sheet sheet S S'.
Proof.
  unfold process_sheet. intros H. bind_inv H.
  assert (Hcustom : forall items,
             for_each (custom_shape env sheet layer pin_loc_p shape_loc_p
                                    pin_rotate) items S = Ok S' ->
             only_sheet sheet S S').
  { intros items. apply for_each_preserves.
    - apply only_sheet_refl.
    - apply only_sheet_trans.
    - intros y s s' Hy. apply custom_shape_appends in Hy as [sh ->].
      apply only_sheet_append. }
  assert (Hiter : forall v,
             (items <- py_iter v ;;
              for_each (custom_shape env sheet layer pin_loc_p shape_loc_p
                                     pin_rotate) items S) = Ok S' ->
             only_sheet sheet S S').
  { intros v Hv. bind_inv Hv. eauto. }
  destruct x as [| | | |l|d|]; eauto.
  - apply default_shape_appends in H as [sh ->]. apply only_sheet_append.
  - destruct l; eauto. injection H as <-. apply only_sheet_refl.
  - destruct d; eauto. injection H as <-. apply only_sheet_refl.
Qed.

(** A declared soldermask or solderpaste shape [o]: the shape placed has
    the rotation of [o] plus the pin rotation, and the location
    [shape_loc_p + pin_loc_p] built from the location of the pad shape; the
    location of [o] itself, read and rotated, is not part of the shape. *)
Lemma custom_shape_placement (env : Collaborators) (sheet layer : string)
      (pin_loc_p shape_loc_p own own' l : point) (pin_rotate r' : value)
      (o : list (string * value)) (S : sheet_shapes) :
  Point (field "location" origin o) = Ok own ->
  py_add (field "rotate" (VInt 0) o) pin_rotate = Ok r' ->
  rotate env own pin_rotate = Ok own' ->
  point_add shape_loc_p pin_loc_p = Ok l ->
  custom_shape env sheet layer pin_loc_p shape_loc_p pin_rotate (VDict o) S
  = Ok (append_shape sheet layer
          (Shape (VDict (Dict.set "location" (VPoint l)
                                  (Dict.set "rotate" r' o))))
          S).
Proof.
  intros Hown Hrot Hturn Hadd. unfold custom_shape.
  cbn [py_copy bind py_get]. fold (field "location" origin o).
  rewrite Hown. cbn [bind]. fold (field "rotate" (VInt 0) o).
  rewrite Hrot. cbn [bind py_setitem]. rewrite Hturn. cbn [bind].
  rewrite Hadd. reflexivity.
Qed.

(** ** One pad shape declaration *)

(** What a successful run of the body of [for shape_dict in shapes] did:
    the declaration it leaves behind carries the sum of the pin location and
    the location it had, and the sum of the rotation it had and the pin
    rotation; the layers were visited with that declaration. *)
Lemma process_pad_shape_inv (env : Collaborators) (pin_name pin_dict : value)
      (pin_loc_p : point) (pin_rotate : value) (d : list (string * value))
      (S S' : sheet_shapes) (shape_dict' : value) :
  process_pad_shape env pin_name pin_dict pin_loc_p pin_rotate (VDict d) S
  = Ok (shape_dict', S') ->
  exists shape_loc_p l r',
    as_point (field "location" origin d) = Ok shape_loc_p
    /\ point_add pin_loc_p shape_loc_p = Ok l
    /\ py_add (field "rotate" (VInt 0) d) pin_rotate = Ok r'
    /\ shape_dict'
       = VDict (Dict.set "rotate" r' (Dict.set "location" (VPoint l) d))
    /\ for_each (process_layer env pin_name pin_dict pin_loc_p shape_loc_p
                               pin_rotate shape_dict')
                (getExtendedLayerList env
                   (field "layers" (VList [VStr "top"]) d))
                S = Ok S'.
Proof.
  unfold process_pad_shape. cbn [py_get bind]. intros H.
  fold (field "layers" (VList [VStr "top"]) d) in H.
  fold (field "location" origin d) in H.
  bind_inv H. rename x into shape_loc_p. bind_inv H. rename x into l.
  cbn [py_setitem py_get bind] in H.
  rewrite get_set_other in H by discriminate.
  fold (field "rotate" (VInt 0) d) in H.
  bind_inv H. rename x into r'.
  cbn [py_setitem bind] in H. bind_inv H. injection H as <- <-.
  exists shape_loc_p, l, r'. repeat split; auto.
Qed.

Lemma process_layer_conductor (env : Collaborators)
      (pin_name pin_dict : value) (pin_loc_p shape_loc_p : point)
      (pin_rotate decl : value) (layer : string) (S S' : sheet_shapes) :
  process_layer env pin_name pin_dict pin_loc_p shape_loc_p pin_rotate
                decl layer S = Ok S' ->
  exists pad_shape,
    shape_dict pad_shape = decl
    /\ forall l,
        bucket S' "conductor" l
        = bucket (append_shape "conductor" layer pad_shape S) "conductor" l.
Proof.
  unfold process_layer. intros H. bind_inv H. bind_inv H.
  exists x0. split.
  - destruct (is_True x).
    + bind_inv Hx0. now injection Hx0 as <-.
    + now injection Hx0 as <-.
  - intros l. revert H. generalize (append_shape "conductor" layer x0 S).
    intros S0 H. cbn [for_each] in H. bind_inv H. bind_inv H.
    injection H as <-.
    apply process_sheet_frame in Hx1, Hx2.
    rewrite (Hx2 "conductor" l) by discriminate.
    now rewrite (Hx1 "conductor" l) by discriminate.
Qed.

(** A loop over [layers] whose body appends one shape satisfying [P] to the
    bucket of [sheet] and of the layer it visits, and nothing to the other
    buckets of [sheet]: every bucket of [sheet] grows by as many shapes,
    all satisfying [P], as the loop visits its layer. *)
Lemma for_each_layer_appends (P : shape -> Prop) (sheet : string)
      (body : string -> sheet_shapes -> result sheet_shapes) :
  (forall layer s s',
      body layer s = Ok s' ->
      exists sh,
        P sh /\ forall l,
          bucket s' sheet l
          = if String.eqb l layer then (bucket s sheet l ++ [sh])%list
            else bucket s sheet l) ->
  forall layers S S',
    for_each body layers S = Ok S' ->
    forall l, exists news,
      bucket S' sheet l = (bucket S sheet l ++ news)%list
      /\ Forall P news
      /\ List.length news = visits l layers.
Proof.
  intros Hbody layers.
  induction layers as [|layer layers IH]; simpl; intros S S' H l.
  - injection H as <-. exists []. rewrite app_nil_r. auto.
  - bind_inv H. destruct (Hbody _ _ _ Hx) as (sh & HP & Hsh).
    destruct (IH _ _ H l) as (news & Hnews & HPs & Hlen).
    rewrite Hnews, Hsh. unfold visits. simpl.
    destruct (String.eqb l layer).
    + exists (sh :: news). rewrite <- app_assoc. simpl.
      split; [reflexivity|]. split; [now constructor|]. now rewrite Hlen.
    + exists news. auto.
Qed.

(** One visit of a layer by the pin expander places one conductor shape,
    built from the declaration, on that layer. *)
Lemma process_layer_places_conductor (env : Collaborators)
      (pin_name pin_dict : value) (pin_loc_p shape_loc_p : point)
      (pin_rotate decl : value) (layer : string) (S S' : sheet_shapes) :
  process_layer env pin_name pin_dict pin_loc_p shape_loc_p pin_rotate
                decl layer S = Ok S' ->
  exists sh,
    shape_dict sh = decl
    /\ forall l,
        bucket S' "conductor" l
        = if String.eqb l layer then (bucket S "conductor" l ++ [sh])%list
          else bucket S "conductor" l.
Proof.
  intros H. apply process_layer_conductor in H as (sh & Hsh & Hb).
  exists sh. split; [exact Hsh|]. intros l. rewrite Hb. apply bucket_append.
Qed.


(** A pad shape declaration that expands to the layers [layers]: every
    conductor bucket grows by as many shapes as [layers] has its layer, each
    built from the declaration as the run leaves it. *)
Lemma conductor_shapes_of_declaration (env : Collaborators)
      (pin_name pin_dict : value) (pin_loc_p : point) (pin_rotate : value)
      (d : list (string * value)) (S S' : sheet_shapes) (shape_dict' : value) :
  process_pad_shape env pin_name pin_dict pin_loc_p pin_rotate (VDict d) S
  = Ok (shape_dict', S') ->
  forall l, exists news,
    bucket S' "conductor" l = (bucket S "conductor" l ++ news)%list
    /\ Forall (fun sh => shape_dict sh = shape_dict') news
    /\ List.length news
       = visits l (getExtendedLayerList env
                     (field "layers" (VList [VStr "top"]) d)).
Proof.
  intros H.
  apply process_pad_shape_inv in H
    as (shape_loc_p & l0 & r' & _ & _ & _ & _ & H).
  revert H. apply for_each_layer_appends.
  intros layer s s'. apply process_layer_places_conductor.
Qed.


(** ** Declarations shared between pins (C1, C2, C4, C8) *)

(** C1.  Two pins, at (10, 0) and at (20, 0), on one pad whose rect has the
    local offset (1, 0).  The construction assigns the location and the
    rotation on the rect of the pad table itself: the document it leaves is
    not the document it was given, the rect of the pad now carrying the
    location (31, 0), and the shape of the second pin, placed at (31, 0),
    has seen the location written for the first pin. *)
Theorem pad_template_updated_in_place :
  document_after (Footprint Sample.env Sample.two_pins)
  = Some Sample.two_pins_after
  /\ Sample.two_pins_after <> Sample.two_pins
  /\ placed "location" "conductor" "top" (Footprint Sample.env Sample.two_pins)
     = [at_ 11 0; at_ 31 0].
Proof.
  split; [vm_compute; reflexivity|]. split; [|vm_compute; reflexivity].
  intros H.
  apply (f_equal (fun doc => lookup3 doc "pads" "PAD1" "shapes")) in H.
  vm_compute in H. discriminate H.
Qed.

(** C2.  Two pins, both rotated by 90, at (10, 0) and at (20, 0), on one pad
    whose rect has the local offset (1, 0) and no rotation.  The conductor
    shape of the first pin is at (11, 0), rotated by 90; the conductor shape
    of the second pin is at (31, 0), rotated by 180, where the pin location
    plus the local offset is (21, 0) and the pin rotation plus the local
    rotation is 90. *)
Theorem second_pin_conductor_placement :
  placed "location" "conductor" "top"
         (Footprint Sample.env Sample.two_rotated_pins)
  = [at_ 11 0; at_ 31 0]
  /\ placed "rotate" "conductor" "top"
            (Footprint Sample.env Sample.two_rotated_pins)
     = [Some (VInt 90); Some (VInt 180)]
  /\ point_add (mkPoint (NInt 20) (NInt 0)) (mkPoint (NInt 1) (NInt 0))
     = Ok (mkPoint (NInt 21) (NInt 0))
  /\ py_add (VInt 0) (VInt 90) = Ok (VInt 90).
Proof. repeat split; vm_compute; reflexivity. Qed.

(** C4.  Two pins, at (10, 0) and at (20, 0), on one pad whose rect has the
    local offset (1, 0) and declares a soldermask rect.  The soldermask shape
    of the first pin is at (11, 0); the soldermask shape of the second pin is
    at (31, 0), where the local offset of the pad shape plus the pin location
    is (21, 0). *)
Theorem second_pin_soldermask_location :
  placed "location" "soldermask" "top"
         (Footprint Sample.env Sample.two_pins_masked)
  = [at_ 11 0; at_ 31 0]
  /\ point_add (mkPoint (NInt 1) (NInt 0)) (mkPoint (NInt 20) (NInt 0))
     = Ok (mkPoint (NInt 21) (NInt 0)).
Proof. split; vm_compute; reflexivity. Qed.

(** C8.  Two constructions in a row from the document [Sample.two_pins]:
    the first leaves the document as [Sample.two_pins_after] and places the
    conductor shapes at (11, 0) and (31, 0); the second, from the document
    as the first left it, places them at (41, 0) and (61, 0).  The two
    collections of shapes differ. *)
Theorem second_construction_differs :
  document_after (Footprint Sample.env Sample.two_pins)
  = Some Sample.two_pins_after
  /\ placed "location" "conductor" "top"
            (Footprint Sample.env Sample.two_pins)
     = [at_ 11 0; at_ 31 0]
  /\ placed "location" "conductor" "top"
            (Footprint Sample.env Sample.two_pins_after)
     = [at_ 41 0; at_ 61 0]
  /\ get_shapes Sample.env Sample.two_pins
     <> get_shapes Sample.env Sample.two_pins_after.
Proof.
  repeat split; try (vm_compute; reflexivity).
  intros H.
  apply (f_equal (fun r => match r with
                           | Ok shapes =>
                               map (attr "location")
                                   (bucket shapes "conductor" "top")
                           | Raise _ => []
                           end)) in H.
  vm_compute in H. discriminate H.
Qed.

(** ** Default soldermask and solderpaste shapes (C3) *)



(** The whole scenario: the conductor sheet has one shape on top and one on
    bottom, each at (10, 0), and the soldermask sheet has one shape on top
    and one on bottom, each of width 1.1 and height 1.1. *)
Example scenario_shapes :
  let run := Footprint Sample.env Sample.scenario in
  placed "location" "conductor" "top" run = [at_ 10 0]
  /\ placed "location" "conductor" "bottom" run = [at_ 10 0]
  /\ placed "width" "soldermask" "top" run = [Some (VFloat 1.1)]
  /\ placed "height" "soldermask" "top" run = [Some (VFloat 1.1)]
  /\ placed "width" "soldermask" "bottom" run = [Some (VFloat 1.1)]
  /\ placed "height" "soldermask" "bottom" run = [Some (VFloat 1.1)].
Proof. repeat split; vm_compute; reflexivity. Qed.

(** ** Suppressed soldermask (C5) *)









(** ** A pin without its pad (C6) *)

Lemma py_store_keeps_absent (kv : list (string * value)) (key v : value) :
  exists kv',
    py_store (VDict kv) key v = VDict kv'
    /\ forall k, Dict.get k kv = None -> Dict.get k kv' = None.
Proof.
  destruct key; simpl; try solve [exists kv; split; auto].
  unfold Dict.mem. destruct (Dict.get s kv) eqn:E.
  - exists (Dict.set s v kv). split; [reflexivity|].
    intros k Hk. rewrite get_set_other; [exact Hk|congruence].
  - exists kv. split; auto.
Qed.

Lemma process_pin_keeps_absent (env : Collaborators) (pins_dict pin_name : value)
      (k : string) (st st' : value * sheet_shapes) :
  process_pin env pins_dict pin_name st = Ok st' ->
  lacks_pad k st -> lacks_pad k st'.
Proof.
  destruct st as [pads_dict S]. intros H (kv & Hkv & Hk).
  simpl in Hkv. subst pads_dict.
  unfold process_pin in H. repeat bind_inv H.
  destruct x8 as [items' S1]. repeat bind_inv H. injection H as <-.
  destruct (py_store_keeps_absent kv x3
              (py_store x4 (VStr "shapes") (updated x6 items')))
    as (kv' & Hstore & Hkv').
  exists kv'. split; [exact Hstore|]. now apply Hkv'.
Qed.

Lemma process_pin_dangling (env : Collaborators)
      (pins pads layout : list (string * value)) (name pad_name : string)
      (entry : value) (S : sheet_shapes) :
  Dict.get name pins = Some entry ->
  py_getitem entry "layout" = Ok (VDict layout) ->
  Dict.get "pad" layout = Some (VStr pad_name) ->
  Dict.get pad_name pads = None ->
  process_pin env (VDict pins) (VStr name) (VDict pads, S)
  = match Point (field "location" origin layout) with
    | Ok _ => Raise KeyError
    | Raise e => Raise e
    end.
Proof.
  intros Hentry Hlayout Hpad Habsent.
  unfold process_pin. cbn [py_subscript py_getitem].
  rewrite Hentry. cbn [bind]. rewrite Hlayout. cbn [bind py_get].
  fold (field "location" origin layout).
  destruct (Point (field "location" origin layout)); cbn [bind];
    [|reflexivity].
  cbn [py_getitem]. rewrite Hpad. cbn [bind py_subscript py_getitem].
  rewrite Habsent. reflexivity.
Qed.

Lemma Footprint_pins_raise (env : Collaborators)
      (f pins : list (string * value)) (pads : value) (e : exn) :
  Dict.get "pins" f = Some (VDict pins) ->
  field "pads" (VDict []) f = pads ->
  for_each (process_pin env (VDict pins)) (map VStr (Dict.keys pins))
           (pads, init_shapes) = Raise e ->
  Footprint env (VDict f) = Raise e.
Proof.
  intros Hpins Hpads H.
  unfold Footprint, _process_pins. cbn [py_get].
  rewrite Hpins. fold (field "pads" (VDict []) f). rewrite Hpads.
  cbn [bind py_iter]. rewrite H. reflexivity.
Qed.

(** C6.  A footprint whose pin [name] refers to a pad [pad_name] that the
    pad table does not have: the construction raises, so that there is no
    collection of shapes at all; and when the pins before [name] are
    processed without an exception and the location of the pin is a pair
    of coordinates, the exception is [KeyError], a [LookupError]. *)
Theorem dangling_pad_reference
        (env : Collaborators) (f pins pads layout : list (string * value))
        (name pad_name : string) (entry : value) :
  Dict.get "pins" f = Some (VDict pins) ->
  field "pads" (VDict []) f = VDict pads ->
  Dict.get name pins = Some entry ->
  py_getitem entry "layout" = Ok (VDict layout) ->
  Dict.get "pad" layout = Some (VStr pad_name) ->
  Dict.get pad_name pads = None ->
  (exists e, Footprint env (VDict f) = Raise e
             /\ get_shapes env (VDict f) = Raise e)
  /\ (forall before after st p,
         pins = (before ++ (name, entry) :: after)%list ->
         for_each (process_pin env (VDict pins))
                  (map VStr (Dict.keys before)) (VDict pads, init_shapes)
         = Ok st ->
         Point (field "location" origin layout) = Ok p ->
         Footprint env (VDict f) = Raise KeyError
         /\ is_LookupError KeyError = true).
Proof.
  intros Hpins Hpads Hentry Hlayout Hpad Habsent.
  assert (Hkeep : forall x s s',
             process_pin env (VDict pins) x s = Ok s' ->
             lacks_pad pad_name s -> lacks_pad pad_name s').
  { intros x s s'. apply process_pin_keeps_absent. }
  assert (Hdangling : forall s,
             lacks_pad pad_name s ->
             process_pin env (VDict pins) (VStr name) s
             = match Point (field "location" origin layout) with
               | Ok _ => Raise KeyError
               | Raise e => Raise e
               end).
  { intros [pads' S] (kv & Hkv & Hk). simpl in Hkv. subst pads'.
    now apply process_pin_dangling with (pad_name := pad_name)
                                        (entry := entry). }
  assert (Hinit : lacks_pad pad_name (VDict pads, init_shapes)).
  { exists pads. auto. }
  split.
  - destruct (for_each_raises (lacks_pad pad_name)
                (process_pin env (VDict pins)) (VStr name) Hkeep)
      with (xs := map VStr (Dict.keys pins)) (s := (VDict pads, init_shapes))
      as [e He]; auto.
    + intros s Hs. rewrite (Hdangling s Hs).
      destruct (Point (field "location" origin layout)); eauto.
    + apply in_map. eapply get_In_keys; eauto.
    + exists e.
      assert (HF : Footprint env (VDict f) = Raise e)
        by (eapply Footprint_pins_raise; eauto).
      split; [exact HF|]. unfold get_shapes. now rewrite HF.
  - intros before after st p Hsplit Hbefore Hp.
    split; [|reflexivity].
    eapply Footprint_pins_raise; eauto.
    rewrite Hsplit at 2. unfold Dict.keys. rewrite map_app, map_app.
    rewrite for_each_app. fold (Dict.keys before). rewrite Hbefore.
    cbn [bind map for_each fst].
    rewrite Hdangling, Hp; [reflexivity|].
    revert Hbefore Hinit. generalize (map VStr (Dict.keys before)).
    generalize (VDict pads, init_shapes).
    intros s0 xs. revert s0.
    induction xs as [|x xs IH]; simpl; intros s0 H Hs0.
    + now injection H as <-.
    + bind_inv H. eauto.
Qed.

Lemma dangling_pad_reference_witness :
  Footprint Sample.env Sample.dangling = Raise KeyError.
Proof.
  refine (proj1 (proj2 (dangling_pad_reference Sample.env
            [ ("pins", VDict [ ("P1", Sample.pin 10 0 "PAD1");
                               ("P2", Sample.pin 20 0 "PAD9") ]);
              ("pads", VDict [("PAD1",
                               VDict [("shapes",
                                       VList [Sample.pad_shape_decl])])]) ]
            _ _ [ ("location", VList [VInt 20; VInt 0]); ("pad", VStr "PAD9") ]
            "P2" "PAD9" _
            eq_refl eq_refl eq_refl eq_refl eq_refl eq_refl)
          [("P1", Sample.pin 10 0 "PAD1")] []
          (match for_each (process_pin Sample.env
                             (VDict [ ("P1", Sample.pin 10 0 "PAD1");
                                      ("P2", Sample.pin 20 0 "PAD9") ]))
                          [VStr "P1"]
                          (VDict [("PAD1",
                                   VDict [("shapes",
                                           VList [Sample.pad_shape_decl])])],
                           init_shapes)
           with Ok st => st | Raise _ => (VNone, []) end)
          (mkPoint (NInt 20) (NInt 0)) eq_refl _ eq_refl)).
  vm_compute. reflexivity.
Defined.

(** ** Text on the bottom layer (C7) *)

(** Text on the bottom layer: the mirror flag of the declaration becomes
    the flag it had when that one is true, and ["True"] otherwise; the
    declaration is updated and the shape is built from it. *)
Lemma import_on_layer_bottom_text (sheet : string) (d : list (string * value))
      (S : sheet_shapes) :
  Dict.get "type" d = Some (VStr "text") ->
  let d' := Dict.set "mirror" (py_or (field "mirror" VNone d) (VStr "True")) d in
  import_on_layer sheet "bottom" (VDict d, S)
  = Ok (VDict d', append_shape sheet "bottom" (Shape (VDict d')) S).
Proof.
  intros Htype d'. unfold import_on_layer.
  cbn [String.eqb Ascii.eqb Bool.eqb py_getitem]. rewrite Htype.
  reflexivity.
Qed.

(** Any other layer: the declaration is instantiated as it is. *)
Lemma import_on_layer_other (sheet layer : string) (decl : value)
      (S : sheet_shapes) :
  layer <> "bottom" ->
  import_on_layer sheet layer (decl, S)
  = Ok (decl, append_shape sheet layer (Shape decl) S).
Proof.
  intros Hne. unfold import_on_layer.
  destruct (String.eqb layer "bottom") eqn:E; [|reflexivity].
  apply String.eqb_eq in E. contradiction.
Qed.

(** C7.  Silkscreen text on the bottom layer whose mirror flag is set to
    false is placed with the mirror flag ["True"]; and silkscreen text
    without a mirror flag on the layers bottom and top, in that order, is
    placed on the top layer with the mirror flag ["True"]. *)
Theorem bottom_text_mirror_flag :
  placed "mirror" "silkscreen" "bottom"
         (Footprint Sample.env Sample.unmirrored_bottom_text)
  = [Some (VStr "True")]
  /\ placed "mirror" "silkscreen" "top"
            (Footprint Sample.env Sample.bottom_and_top_text)
     = [Some (VStr "True")].
Proof. split; vm_compute; reflexivity. Qed.

(** ** Drills (C9) *)



(** ** The default of the logical layers (C10) *)

Lemma import_shape_top (env : Collaborators) (sheet key : string)
      (d : list (string * value)) (S : sheet_shapes) :
  getExtendedLayerList env (VList [VStr "top"]) = ["top"] ->
  truthy (field key VNone d) = false ->
  import_shape env sheet key (VDict d) S
  = Ok (append_shape sheet "top" (Shape (VDict d)) S).
Proof.
  intros Htop Hfalsy. unfold import_shape. cbn [py_get bind].
  fold (field key VNone d). unfold py_or. rewrite Hfalsy, Htop.
  reflexivity.
Qed.

Lemma import_sheet_shape_top (env : Collaborators) (sheet : string)
      (d : list (string * value)) (S : sheet_shapes) :
  getExtendedLayerList env (VList [VStr "top"]) = ["top"] ->
  truthy (field "layers" VNone d) = false ->
  import_sheet_shape env sheet (VDict d) S
  = Ok (VDict d, append_shape sheet "top" (Shape (VDict d)) S).
Proof.
  intros Htop Hfalsy. unfold import_sheet_shape. cbn [py_get bind].
  fold (field "layers" VNone d). unfold py_or. rewrite Hfalsy, Htop.
  reflexivity.
Qed.

Lemma for_each_import_top (env : Collaborators) (sheet key : string)
      (decls : list value) :
  getExtendedLayerList env (VList [VStr "top"]) = ["top"] ->
  Forall (falsy_layers key) decls ->
  forall S,
    for_each (import_shape env sheet key) decls S
    = Ok (top_placed sheet decls S).
Proof.
  intros Htop Hall. induction Hall as [|v decls (d & -> & Hfalsy) _ IH];
    intros S; [reflexivity|].
  cbn [for_each]. rewrite (import_shape_top env sheet key d S Htop Hfalsy).
  cbn [bind]. rewrite IH. reflexivity.
Qed.

Lemma for_each_upd_import_top (env : Collaborators) (sheet : string)
      (decls : list value) :
  getExtendedLayerList env (VList [VStr "top"]) = ["top"] ->
  Forall (falsy_layers "layers") decls ->
  forall S,
    for_each_upd (import_sheet_shape env sheet) decls S
    = Ok (decls, top_placed sheet decls S).
Proof.
  intros Htop Hall. induction Hall as [|v decls (d & -> & Hfalsy) _ IH];
    intros S; [reflexivity|].
  cbn [for_each_upd].
  rewrite (import_sheet_shape_top env sheet d S Htop Hfalsy).
  cbn [bind]. rewrite IH. reflexivity.
Qed.

Lemma update_in_lookup3 (footprint v : value) (k1 k2 k3 : string) :
  lookup3 footprint k1 k2 k3 = Ok v ->
  update_in footprint [k1; k2; k3] v = footprint.
Proof.
  unfold lookup3, py_getitem. intros H.
  destruct footprint as [ |?|?|?|?|f|?]; try discriminate.
  cbn [update_in].
  destruct (Dict.get k1 f) as [a|] eqn:Ha; [|discriminate]. cbn [bind] in H.
  destruct a as [ |?|?|?|?|da|?]; try discriminate.
  destruct (Dict.get k2 da) as [b|] eqn:Hb; [|discriminate]. cbn [bind] in H.
  destruct b as [ |?|?|?|?|db|?]; try discriminate.
  destruct (Dict.get k3 db) as [c|] eqn:Hc; [|discriminate].
  injection H as ->.
  rewrite (set_get_id k3 v db Hc), (set_get_id k2 (VDict db) da Hb),
    (set_get_id k1 (VDict da) f Ha).
  reflexivity.
Qed.

Lemma process_sheet_shapes_top (env : Collaborators) (sheet : string)
      (footprint : value) (decls : list value) (S : sheet_shapes) :
  getExtendedLayerList env (VList [VStr "top"]) = ["top"] ->
  lookup3 footprint "layout" sheet "shapes" = Ok (VList decls) ->
  Forall (falsy_layers "layers") decls ->
  process_sheet_shapes env sheet (footprint, S)
  = Ok (footprint, top_placed sheet decls S).
Proof.
  intros Htop Hlookup Hall. unfold process_sheet_shapes.
  rewrite Hlookup. cbn [bind try_except].
  destruct decls as [|v decls].
  - reflexivity.
  - unfold py_or. cbn [truthy py_iter bind].
    rewrite (for_each_upd_import_top env sheet (v :: decls) Htop Hall S).
    cbn [bind]. rewrite (update_in_lookup3 _ _ _ _ _ Hlookup). reflexivity.
Qed.

Lemma top_placed_bucket (sheet : string) (decls : list value) :
  forall S,
    bucket (top_placed sheet decls S) sheet "top"
    = (bucket S sheet "top" ++ map Shape decls)%list.
Proof.
  induction decls as [|v decls IH]; intros S.
  - cbn [top_placed fold_left map]. now rewrite app_nil_r.
  - unfold top_placed in *. cbn [fold_left map]. rewrite IH.
    rewrite bucket_append_same. now rewrite <- app_assoc.
Qed.

Lemma process_pad_shape_no_layers (env : Collaborators)
      (pin_name pin_dict : value) (pin_loc_p : point) (pin_rotate : value)
      (d : list (string * value)) (S S' : sheet_shapes) (shape_dict' : value) :
  getExtendedLayerList env (VList []) = [] ->
  Dict.get "layers" d = Some (VList []) ->
  process_pad_shape env pin_name pin_dict pin_loc_p pin_rotate (VDict d) S
  = Ok (shape_dict', S') ->
  S' = S.
Proof.
  intros Hnil Hlayers H.
  apply process_pad_shape_inv in H
    as (shape_loc_p & l & r' & _ & _ & _ & _ & H).
  unfold field in H. rewrite Hlayers, Hnil in H.
  cbn [for_each] in H. now injection H.
Qed.

Lemma pad_shapes_no_layers (env : Collaborators)
      (pin_name pin_dict : value) (pin_loc_p : point) (pin_rotate : value)
      (decls : list value) :
  getExtendedLayerList env (VList []) = [] ->
  Forall no_layers decls ->
  forall S decls' S',
    for_each_upd (process_pad_shape env pin_name pin_dict pin_loc_p pin_rotate)
                 decls S = Ok (decls', S') ->
    S' = S.
Proof.
  intros Hnil Hall. induction Hall as [|v decls (d & -> & Hlayers) _ IH];
    intros S decls' S' H; cbn [for_each_upd] in H.
  - now injection H.
  - bind_inv H. destruct x as [v' S1]. bind_inv H. destruct x as [vs S2].
    injection H as _ <-.
    apply (process_pad_shape_no_layers env _ _ _ _ d S S1 v' Hnil Hlayers)
      in Hx.
    subst S1. now apply IH in Hx0.
Qed.

(** C10.  With a layer resolver under which the list of ["top"] denotes the
    top layer and the empty list denotes no layer.  The body of the
    importers of pours and of assembly shapes ([import_shape], with the key
    ["layers"] or ["layer"]) and the body of the importer of conductor,
    silkscreen and soldermask shapes place a declaration whose layers are
    absent or present with a false truth value (null, an empty list) once,
    on the top layer.  The pin expander run on a pad shape whose ["layers"]
    is the empty list raises nothing and leaves every bucket of every sheet
    as it was, and run on a pad shape without the key ["layers"] it places
    the conductor shape on the top layer.  The importers themselves: on a
    document whose pours (assembly shapes; conductor, silkscreen and
    soldermask shapes) are a list of such declarations, [_process_pours]
    ([_process_assembly_shapes]; [_process_shapes], which leaves the
    document as it was) raises nothing and gives the accumulator with every
    declaration placed, in order, on the top layer of its sheet, so that
    the top bucket of the sheet grows by one shape per declaration; whereas
    the loop of the pin expander over the shapes of a pad that all declare
    the empty list of layers leaves the accumulator as it was. *)
Theorem layers_default_asymmetry (env : Collaborators) :
  getExtendedLayerList env (VList [VStr "top"]) = ["top"] ->
  getExtendedLayerList env (VList []) = [] ->
  (forall sheet key d S,
      truthy (field key VNone d) = false ->
      import_shape env sheet key (VDict d) S
      = Ok (append_shape sheet "top" (Shape (VDict d)) S))
  /\ (forall sheet d S,
         truthy (field "layers" VNone d) = false ->
         import_sheet_shape env sheet (VDict d) S
         = Ok (VDict d, append_shape sheet "top" (Shape (VDict d)) S))
  /\ (forall pin_name pin_dict pin_loc_p pin_rotate d S shape_loc_p l r',
         Dict.get "layers" d = Some (VList []) ->
         as_point (field "location" origin d) = Ok shape_loc_p ->
         point_add pin_loc_p shape_loc_p = Ok l ->
         py_add (field "rotate" (VInt 0) d) pin_rotate = Ok r' ->
         process_pad_shape env pin_name pin_dict pin_loc_p pin_rotate
                           (VDict d) S
         = Ok (VDict (Dict.set "rotate" r' (Dict.set "location" (VPoint l) d)),
               S))
  /\ (forall pin_name pin_dict pin_loc_p pin_rotate d S shape_dict' S',
         Dict.get "layers" d = None ->
         process_pad_shape env pin_name pin_dict pin_loc_p pin_rotate
                           (VDict d) S = Ok (shape_dict', S') ->
         exists pad_shape,
           shape_dict pad_shape = shape_dict'
           /\ bucket S' "conductor" "top"
              = (bucket S "conductor" "top" ++ [pad_shape])%list)
  /\ (forall footprint decls S,
         lookup3 footprint "layout" "pours" "shapes" = Ok (VList decls) ->
         Forall (falsy_layers "layers") decls ->
         _process_pours env footprint S = Ok (top_placed "pours" decls S))
  /\ (forall footprint decls S,
         lookup3 footprint "layout" "assembly" "shapes" = Ok (VList decls) ->
         Forall (falsy_layers "layer") decls ->
         _process_assembly_shapes env footprint S
         = Ok (top_placed "assembly" decls S))
  /\ (forall footprint conductor silkscreen soldermask S,
         lookup3 footprint "layout" "conductor" "shapes"
         = Ok (VList conductor) ->
         lookup3 footprint "layout" "silkscreen" "shapes"
         = Ok (VList silkscreen) ->
         lookup3 footprint "layout" "soldermask" "shapes"
         = Ok (VList soldermask) ->
         Forall (falsy_layers "layers") conductor ->
         Forall (falsy_layers "layers") silkscreen ->
         Forall (falsy_layers "layers") soldermask ->
         _process_shapes env footprint S
         = Ok (footprint,
               top_placed "soldermask" soldermask
                 (top_placed "silkscreen" silkscreen
                    (top_placed "conductor" conductor S))))
  /\ (forall sheet decls S,
         bucket (top_placed sheet decls S) sheet "top"
         = (bucket S sheet "top" ++ map Shape decls)%list)
  /\ (forall pin_name pin_dict pin_loc_p pin_rotate decls S decls' S',
         Forall no_layers decls ->
         for_each_upd
           (process_pad_shape env pin_name pin_dict pin_loc_p pin_rotate)
           decls S = Ok (decls', S') ->
         S' = S).
Proof.
  intros Htop Hnil.
  split; [|split; [|split; [|split; [|split; [|split; [|split; [|split]]]]]]].
  - intros sheet key d S Hfalsy. unfold import_shape. cbn [py_get bind].
    fold (field key VNone d). unfold py_or. rewrite Hfalsy, Htop.
    reflexivity.
  - intros sheet d S Hfalsy. unfold import_sheet_shape. cbn [py_get bind].
    fold (field "layers" VNone d). unfold py_or. rewrite Hfalsy, Htop.
    reflexivity.
  - intros pin_name pin_dict pin_loc_p pin_rotate d S shape_loc_p l r'
           Hlayers Hloc Hadd Hrot.
    unfold process_pad_shape. cbn [py_get bind].
    rewrite Hlayers, Hnil.
    fold (field "location" origin d). rewrite Hloc. cbn [bind].
    rewrite Hadd. cbn [bind py_setitem py_get].
    rewrite get_set_other by discriminate.
    fold (field "rotate" (VInt 0) d). rewrite Hrot. reflexivity.
  - intros pin_name pin_dict pin_loc_p pin_rotate d S shape_dict' S'
           Habsent H.
    apply process_pad_shape_inv in H
      as (shape_loc_p & l & r' & _ & _ & _ & Hd & H).
    unfold field in H. rewrite Habsent, Htop in H.
    cbn [for_each] in H. bind_inv H. injection H as <-.
    apply process_layer_conductor in Hx as (pad_shape & Hps & Hb).
    exists pad_shape. split; [exact Hps|].
    rewrite Hb. apply bucket_append_same.
  - intros footprint decls S Hlookup Hall. unfold _process_pours.
    rewrite Hlookup. cbn [py_iter bind].
    now apply for_each_import_top.
  - intros footprint decls S Hlookup Hall. unfold _process_assembly_shapes.
    rewrite Hlookup. cbn [py_iter bind].
    now apply for_each_import_top.
  - intros footprint conductor silkscreen soldermask S Hc Hk Hm Ac Ak Am.
    unfold _process_shapes. cbn [for_each].
    rewrite (process_sheet_shapes_top env "conductor" footprint conductor S
               Htop Hc Ac).
    cbn [bind].
    rewrite (process_sheet_shapes_top env "silkscreen" footprint silkscreen _
               Htop Hk Ak).
    cbn [bind].
    rewrite (process_sheet_shapes_top env "soldermask" footprint soldermask _
               Htop Hm Am).
    reflexivity.
  - intros sheet decls S. apply top_placed_bucket.
  - intros pin_name pin_dict pin_loc_p pin_rotate decls S decls' S' Hall H.
    eapply pad_shapes_no_layers; eauto.
Qed.

Lemma layers_default_asymmetry_witness :
  let pour := [("type", VStr "path"); ("layers", VList [])] in
  let plain := [("type", VStr "path")] in
  let note := [("type", VStr "rect"); ("layer", VNone)] in
  let pad := (Sample.rect 1 1 ++ [("layers", VList [])])%list in
  let p := mkPoint (NInt 10) (NInt 0) in
  let document :=
    VDict [("layout",
            VDict [("pours",
                    VDict [("shapes", VList [VDict pour; VDict plain])]);
                   ("assembly", VDict [("shapes", VList [VDict note])])])] in
  import_shape Sample.env "pours" "layers" (VDict pour) init_shapes
  = Ok (append_shape "pours" "top" (Shape (VDict pour)) init_shapes)
  /\ process_pad_shape Sample.env (VStr "P1") (VDict []) p (VInt 0)
                       (VDict pad) init_shapes
     = Ok (VDict (Dict.set "rotate" (VInt 0)
                           (Dict.set "location" (VPoint p) pad)),
           init_shapes)
  /\ _process_pours Sample.env document init_shapes
     = Ok (top_placed "pours" [VDict pour; VDict plain] init_shapes)
  /\ _process_assembly_shapes Sample.env document init_shapes
     = Ok (top_placed "assembly" [VDict note] init_shapes).
Proof.
  intros pour plain note pad p document.
  destruct (layers_default_asymmetry Sample.env eq_refl eq_refl)
    as (Himport & _ & Hpin & _ & Hpours & Hassembly & _).
  split; [|split; [|split]].
  - apply Himport. reflexivity.
  - apply (Hpin (VStr "P1") (VDict []) p (VInt 0) pad init_shapes
                (mkPoint (NInt 0) (NInt 0)) p (VInt 0)); reflexivity.
  - apply Hpours; [reflexivity|].
    constructor; [exists pour; split; reflexivity|].
    constructor; [exists plain; split; reflexivity|].
    constructor.
  - apply Hassembly; [reflexivity|].
    constructor; [exists note; split; reflexivity|].
    constructor.
Defined.

(** * Further properties of the code *)

(** ** Appending to the accumulator *)

Lemma appends_to_refl (sheets : list string) (S : sheet_shapes) :
  appends_to sheets S S.
Proof.
  split; [|reflexivity]. intros sheet l. exists []. now rewrite app_nil_r.
Qed.

Lemma appends_to_trans (sheets : list string) (S1 S2 S3 : sheet_shapes) :
  appends_to sheets S1 S2 -> appends_to sheets S2 S3 ->
  appends_to sheets S1 S3.
Proof.
  intros [G12 O12] [G23 O23]. split.
  - intros sheet l. destruct (G12 sheet l) as [n1 H1].
    destruct (G23 sheet l) as [n2 H2].
    exists (n1 ++ n2)%list. now rewrite H2, H1, app_assoc.
  - intros sheet l Hout. now rewrite O23, O12.
Qed.

Lemma appends_to_weaken (sheets sheets' : list string) (S S' : sheet_shapes) :
  incl sheets sheets' -> appends_to sheets S S' -> appends_to sheets' S S'.
Proof.
  intros Hincl [G O]. split; [exact G|].
  intros sheet l Hout. apply O. intros Hin. apply Hout. now apply Hincl.
Qed.

Lemma appends_to_append (sheets : list string) (sheet layer : string)
      (s : shape) (S : sheet_shapes) :
  In sheet sheets -> appends_to sheets S (append_shape sheet layer s S).
Proof.
  intros Hin. split.
  - intros sheet' l.
    destruct (string_dec sheet' sheet) as [->|Hne].
    + rewrite bucket_append. destruct (String.eqb l layer).
      * now exists [s].
      * exists []. now rewrite app_nil_r.
    + exists []. rewrite app_nil_r. apply bucket_append_other. now left.
  - intros sheet' l Hout. apply bucket_append_other. left.
    intros ->. contradiction.
Qed.

Lemma for_each_upd_preserves {A S : Type} (R : S -> S -> Prop)
      (body : A -> S -> result (A * S)) :
  (forall s, R s s) ->
  (forall a b c, R a b -> R b c -> R a c) ->
  (forall x s x' s', body x s = Ok (x', s') -> R s s') ->
  forall xs s xs' s', for_each_upd body xs s = Ok (xs', s') -> R s s'.
Proof.
  intros Hrefl Htrans Hbody xs.
  induction xs as [|x xs IH]; simpl; intros s xs' s' H.
  - injection H as <- <-. apply Hrefl.
  - bind_inv H. destruct x0 as [x1 s1]. bind_inv H.
    destruct x0 as [xs1 s2]. injection H as <- <-.
    eapply Htrans; eauto.
Qed.

Lemma for_each_upd_length {A S : Type} (body : A -> S -> result (A * S)) :
  forall xs s xs' s',
    for_each_upd body xs s = Ok (xs', s') -> List.length xs' = List.length xs.
Proof.
  induction xs as [|x xs IH]; simpl; intros s xs' s' H.
  - now injection H as <- <-.
  - bind_inv H. destruct x0 as [x1 s1]. bind_inv H.
    destruct x0 as [xs1 s2]. injection H as <- <-.
    simpl. f_equal. eauto.
Qed.

Ltac revert_loop :=
  match goal with
  | H : for_each _ _ _ = Ok _ |- _ => revert H
  end.

Ltac revert_upd_loop :=
  match goal with
  | H : for_each_upd _ _ _ = Ok _ |- _ => revert H
  end.

(** ** What each step of the pin expander appends *)

Lemma process_sheet_appends (env : Collaborators) (layer : string)
      (pin_loc_p shape_loc_p : point) (pin_rotate decl : value)
      (pad_shape : shape) (sheet : string) (S S' : sheet_shapes) :
  process_sheet env layer pin_loc_p shape_loc_p pin_rotate decl
                pad_shape sheet S = Ok S' ->
  appends_to [sheet] S S'.
Proof.
  unfold process_sheet. intros H. bind_inv H.
  assert (Hin : In sheet [sheet]) by now left.
  assert (Hiter : forall v,
             (items <- py_iter v ;;
              for_each (custom_shape env sheet layer pin_loc_p shape_loc_p
                                     pin_rotate) items S) = Ok S' ->
             appends_to [sheet] S S').
  { intros v Hv. bind_inv Hv. revert Hv.
    apply for_each_preserves.
    - apply appends_to_refl.
    - apply appends_to_trans.
    - intros y s s' Hy. apply custom_shape_appends in Hy as [sh ->].
      now apply appends_to_append. }
  destruct x as [| | | |l|d|]; eauto.
  - apply default_shape_appends in H as [sh ->].
    now apply appends_to_append.
  - destruct l; eauto. injection H as <-. apply appends_to_refl.
  - destruct d; eauto. injection H as <-. apply appends_to_refl.
Qed.

Lemma process_layer_appends (env : Collaborators)
      (pin_name pin_dict : value) (pin_loc_p shape_loc_p : point)
      (pin_rotate decl : value) (layer : string) (S S' : sheet_shapes) :
  process_layer env pin_name pin_dict pin_loc_p shape_loc_p pin_rotate
                decl layer S = Ok S' ->
  appends_to pad_sheets S S'.
Proof.
  unfold process_layer. intros H. bind_inv H. bind_inv H.
  cbn [for_each] in H. bind_inv H. bind_inv H. injection H as <-.
  apply process_sheet_appends in Hx1, Hx2.
  eapply appends_to_trans;
    [apply (appends_to_append pad_sheets "conductor" layer x0 S);
     simpl; auto|].
  eapply appends_to_trans;
    (eapply appends_to_weaken; [|eassumption]);
    intros k [<-|[]]; simpl; auto.
Qed.

Lemma process_pad_shape_appends (env : Collaborators)
      (pin_name pin_dict : value) (pin_loc_p : point)
      (pin_rotate decl decl' : value) (S S' : sheet_shapes) :
  process_pad_shape env pin_name pin_dict pin_loc_p pin_rotate decl S
  = Ok (decl', S') ->
  appends_to pad_sheets S S'.
Proof.
  unfold process_pad_shape. intros H. repeat bind_inv H.
  injection H as _ <-. revert_loop.
  apply (for_each_preserves (appends_to pad_sheets)).
  - apply appends_to_refl.
  - apply appends_to_trans.
  - intros layer s s'. apply process_layer_appends.
Qed.

Lemma process_drill_appends (pin_loc_p : point) (drill_dict : value)
      (S S' : sheet_shapes) :
  process_drill pin_loc_p drill_dict S = Ok S' ->
  exists sh, S' = append_shape "drills" "top" sh S.
Proof.
  unfold process_drill. intros H. repeat bind_inv H.
  injection H as <-. eauto.
Qed.

Lemma process_pin_appends (env : Collaborators) (pins_dict pin_name : value)
      (st st' : value * sheet_shapes) :
  process_pin env pins_dict pin_name st = Ok st' ->
  appends_to pin_sheets (snd st) (snd st').
Proof.
  destruct st as [pads_dict S]. unfold process_pin. intros H.
  repeat bind_inv H. destruct x8 as [items' S1].
  repeat bind_inv H. injection H as <-. simpl.
  apply appends_to_trans with (S2 := S1).
  - revert_upd_loop. apply (for_each_upd_preserves (appends_to pin_sheets)).
    + apply appends_to_refl.
    + apply appends_to_trans.
    + intros d s d' s' Hd. apply process_pad_shape_appends in Hd.
      eapply appends_to_weaken; [|exact Hd].
      intros k [<-|[<-|[<-|[]]]]; simpl; auto.
  - revert_loop. apply (for_each_preserves (appends_to pin_sheets)).
    + apply appends_to_refl.
    + apply appends_to_trans.
    + intros d s s' Hd. apply process_drill_appends in Hd as [sh ->].
      apply appends_to_append. simpl. auto.
Qed.

Lemma _process_pins_appends (env : Collaborators) (footprint footprint' : value)
      (S S' : sheet_shapes) :
  _process_pins env footprint S = Ok (footprint', S') ->
  appends_to pin_sheets S S'.
Proof.
  unfold _process_pins. intros H. repeat bind_inv H.
  destruct x2 as [pads' S1]. injection H as _ <-.
  revert_loop.
  apply (for_each_preserves
           (fun a b : value * sheet_shapes =>
              appends_to pin_sheets (snd a) (snd b))).
  - intros s. apply appends_to_refl.
  - intros a b c. apply appends_to_trans.
  - intros y s s'. apply process_pin_appends.
Qed.

(** ** What the importers append *)

Lemma place_on_layers_appends (sheet : string) (decl : value)
      (layers : list string) (S : sheet_shapes) :
  appends_to [sheet] S (place_on_layers sheet decl layers S).
Proof.
  unfold place_on_layers. revert S.
  induction layers as [|layer layers IH]; simpl; intros S.
  - apply appends_to_refl.
  - eapply appends_to_trans; [|apply IH].
    apply appends_to_append. now left.
Qed.

Lemma import_shape_appends (env : Collaborators) (sheet key : string)
      (decl : value) (S S' : sheet_shapes) :
  import_shape env sheet key decl S = Ok S' -> appends_to [sheet] S S'.
Proof.
  unfold import_shape. intros H. bind_inv H. injection H as <-.
  apply place_on_layers_appends.
Qed.

Lemma import_on_layer_appends (sheet layer : string)
      (st st' : value * sheet_shapes) :
  import_on_layer sheet layer st = Ok st' ->
  appends_to [sheet] (snd st) (snd st').
Proof.
  destruct st as [decl S]. unfold import_on_layer. intros H.
  bind_inv H. injection H as <-. simpl.
  apply appends_to_append. now left.
Qed.

Lemma import_sheet_shape_appends (env : Collaborators) (sheet : string)
      (decl decl' : value) (S S' : sheet_shapes) :
  import_sheet_shape env sheet decl S = Ok (decl', S') ->
  appends_to [sheet] S S'.
Proof.
  unfold import_sheet_shape. intros H. bind_inv H. revert H.
  generalize (getExtendedLayerList env (py_or x (VList [VStr "top"]))).
  intros layers H.
  apply (for_each_preserves
           (fun a b : value * sheet_shapes =>
              appends_to [sheet] (snd a) (snd b))
           (import_on_layer sheet)) in H; [exact H| | |].
  - intros s. apply appends_to_refl.
  - intros a b c. apply appends_to_trans.
  - intros layer s s'. apply import_on_layer_appends.
Qed.

Lemma process_sheet_shapes_appends (env : Collaborators) (sheet : string)
      (st st' : value * sheet_shapes) :
  process_sheet_shapes env sheet st = Ok st' ->
  appends_to [sheet] (snd st) (snd st').
Proof.
  destruct st as [footprint S]. unfold process_sheet_shapes. intros H.
  bind_inv H. bind_inv H. destruct x0 as [items' S1].
  injection H as <-. simpl. revert_upd_loop.
  apply (for_each_upd_preserves (appends_to [sheet])).
  - apply appends_to_refl.
  - apply appends_to_trans.
  - intros d s d' s'. apply import_sheet_shape_appends.
Qed.

(** ** The sheets each procedure writes to *)

(** X1.  [_process_pins] only appends: in every bucket the shapes that were
    there stay first and in order.  It appends to the sheets conductor,
    soldermask, solderpaste and drills only; the buckets of pours,
    silkscreen and assembly are left as they were. *)
Theorem pin_expander_sheets (env : Collaborators) (footprint footprint' : value)
        (S S' : sheet_shapes) :
  _process_pins env footprint S = Ok (footprint', S') ->
  appends_to pin_sheets S S'
  /\ (forall l, bucket S' "pours" l = bucket S "pours" l)
  /\ (forall l, bucket S' "silkscreen" l = bucket S "silkscreen" l)
  /\ (forall l, bucket S' "assembly" l = bucket S "assembly" l).
Proof.
  intros H. apply _process_pins_appends in H.
  split; [exact H|]. destruct H as [_ Hout].
  repeat split; intros l; apply Hout; simpl;
    intros [E|[E|[E|[E|[]]]]]; discriminate E.
Qed.

Lemma pin_expander_sheets_witness :
  let st := Sample.outcome (_process_pins Sample.env Sample.full init_shapes)
                           (VNone, []) in
  appends_to pin_sheets init_shapes (snd st)
  /\ (forall l, bucket (snd st) "pours" l = bucket init_shapes "pours" l)
  /\ (forall l, bucket (snd st) "silkscreen" l
                = bucket init_shapes "silkscreen" l)
  /\ (forall l, bucket (snd st) "assembly" l
                = bucket init_shapes "assembly" l).
Proof.
  intros st.
  apply (pin_expander_sheets Sample.env Sample.full (fst st) init_shapes
                             (snd st)).
  vm_compute. reflexivity.
Defined.

(** X2.  [_process_pours] never raises for a missing section: when any of
    the lookups [layout], [pours], [shapes] fails the accumulator is returned
    as it is.  Otherwise, when it returns, it has only appended, and only to
    the sheet pours. *)
Theorem pours_importer_sheets (env : Collaborators) (footprint : value)
        (S : sheet_shapes) :
  (forall e, lookup3 footprint "layout" "pours" "shapes" = Raise e ->
             _process_pours env footprint S = Ok S)
  /\ (forall S', _process_pours env footprint S = Ok S' ->
                 appends_to ["pours"] S S').
Proof.
  split.
  - intros e He. unfold _process_pours. now rewrite He.
  - intros S' H. unfold _process_pours in H.
    destruct (lookup3 footprint "layout" "pours" "shapes") as [decls|e].
    + bind_inv H. revert H.
      apply (for_each_preserves (appends_to ["pours"])).
      * apply appends_to_refl.
      * apply appends_to_trans.
      * intros d s s'. apply import_shape_appends.
    + injection H as <-. apply appends_to_refl.
Qed.

Lemma pours_importer_sheets_witness :
  _process_pours Sample.env Sample.two_pins init_shapes = Ok init_shapes
  /\ appends_to ["pours"] init_shapes
                (Sample.outcome
                   (_process_pours Sample.env Sample.full init_shapes) []).
Proof.
  split.
  - apply (proj1 (pours_importer_sheets Sample.env Sample.two_pins
                                        init_shapes) KeyError).
    reflexivity.
  - apply (proj2 (pours_importer_sheets Sample.env Sample.full init_shapes)).
    vm_compute. reflexivity.
Defined.

(** X3.  [_process_assembly_shapes] returns the accumulator as it is when
    any of the lookups [layout], [assembly], [shapes] fails, and otherwise,
    when it returns, has only appended, and only to the sheet assembly. *)
Theorem assembly_importer_sheets (env : Collaborators) (footprint : value)
        (S : sheet_shapes) :
  (forall e, lookup3 footprint "layout" "assembly" "shapes" = Raise e ->
             _process_assembly_shapes env footprint S = Ok S)
  /\ (forall S', _process_assembly_shapes env footprint S = Ok S' ->
                 appends_to ["assembly"] S S').
Proof.
  split.
  - intros e He. unfold _process_assembly_shapes. now rewrite He.
  - intros S' H. unfold _process_assembly_shapes in H.
    destruct (lookup3 footprint "layout" "assembly" "shapes") as [decls|e].
    + bind_inv H. revert H.
      apply (for_each_preserves (appends_to ["assembly"])).
      * apply appends_to_refl.
      * apply appends_to_trans.
      * intros d s s'. apply import_shape_appends.
    + injection H as <-. apply appends_to_refl.
Qed.

Lemma assembly_importer_sheets_witness :
  _process_assembly_shapes Sample.env Sample.two_pins init_shapes
  = Ok init_shapes
  /\ appends_to ["assembly"] init_shapes
                (Sample.outcome
                   (_process_assembly_shapes Sample.env Sample.full
                                             init_shapes) []).
Proof.
  split.
  - apply (proj1 (assembly_importer_sheets Sample.env Sample.two_pins
                                           init_shapes) KeyError).
    reflexivity.
  - apply (proj2 (assembly_importer_sheets Sample.env Sample.full
                                           init_shapes)).
    vm_compute. reflexivity.
Defined.

Lemma _process_shapes_appends (env : Collaborators)
      (footprint footprint' : value) (S S' : sheet_shapes) :
  _process_shapes env footprint S = Ok (footprint', S') ->
  appends_to direct_sheets S S'.
Proof.
  unfold _process_shapes. cbn [for_each]. intros H.
  bind_inv H. bind_inv H. bind_inv H. injection H as ->.
  apply process_sheet_shapes_appends in Hx, Hx0, Hx1.
  simpl in Hx.
  eapply appends_to_trans; [|eapply appends_to_trans].
  - eapply appends_to_weaken; [|exact Hx].
    intros k [<-|[]]; simpl; auto.
  - eapply appends_to_weaken; [|exact Hx0].
    intros k [<-|[]]; simpl; auto.
  - eapply appends_to_weaken; [|exact Hx1].
    intros k [<-|[]]; simpl; auto.
Qed.

(** X4.  [_process_shapes] only appends, and only to the sheets conductor,
    silkscreen and soldermask: the buckets of pours, assembly, solderpaste
    and drills are left as they were. *)
Theorem direct_importer_sheets (env : Collaborators)
        (footprint footprint' : value) (S S' : sheet_shapes) :
  _process_shapes env footprint S = Ok (footprint', S') ->
  appends_to direct_sheets S S'
  /\ (forall l, bucket S' "pours" l = bucket S "pours" l)
  /\ (forall l, bucket S' "assembly" l = bucket S "assembly" l)
  /\ (forall l, bucket S' "solderpaste" l = bucket S "solderpaste" l)
  /\ (forall l, bucket S' "drills" l = bucket S "drills" l).
Proof.
  intros H. apply _process_shapes_appends in H.
  split; [exact H|]. destruct H as [_ Hout].
  repeat split; intros l; apply Hout; simpl;
    intros [E|[E|[E|[]]]]; discriminate E.
Qed.

Lemma direct_importer_sheets_witness :
  let st := Sample.outcome (_process_shapes Sample.env Sample.full init_shapes)
                           (VNone, []) in
  appends_to direct_sheets init_shapes (snd st)
  /\ (forall l, bucket (snd st) "pours" l = bucket init_shapes "pours" l)
  /\ (forall l, bucket (snd st) "assembly" l
                = bucket init_shapes "assembly" l)
  /\ (forall l, bucket (snd st) "solderpaste" l
                = bucket init_shapes "solderpaste" l)
  /\ (forall l, bucket (snd st) "drills" l = bucket init_shapes "drills" l).
Proof.
  intros st.
  apply (direct_importer_sheets Sample.env Sample.full (fst st) init_shapes
                                (snd st)).
  vm_compute. reflexivity.
Defined.

Lemma bucket_init (sheet l : string) : bucket init_shapes sheet l = [].
Proof.
  unfold bucket, sheet_of, init_shapes. simpl.
  repeat (match goal with
          | |- context [String.eqb ?a ?b] => destruct (String.eqb a b)
          end; try reflexivity).
Qed.

(** X5.  The four procedures of [__init__] in sequence.  When the
    construction returns, the pin expander returned, and of the collection
    [get_shapes] gives: the solderpaste and the drills buckets are exactly
    those of the pin expander; every conductor and soldermask bucket starts
    with the shapes of the pin expander, the imported ones following; and
    the pin expander has put nothing on pours, silkscreen and assembly. *)
Theorem construction_order (env : Collaborators) (footprint footprint' : value)
        (S' : sheet_shapes) :
  Footprint env footprint = Ok (footprint', S') ->
  exists footprint1 S1,
    _process_pins env footprint init_shapes = Ok (footprint1, S1)
    /\ (forall l, bucket S' "solderpaste" l = bucket S1 "solderpaste" l)
    /\ (forall l, bucket S' "drills" l = bucket S1 "drills" l)
    /\ (forall l, exists imported,
           bucket S' "conductor" l
           = (bucket S1 "conductor" l ++ imported)%list)
    /\ (forall l, exists imported,
           bucket S' "soldermask" l
           = (bucket S1 "soldermask" l ++ imported)%list)
    /\ (forall l, bucket S1 "pours" l = []
                  /\ bucket S1 "silkscreen" l = []
                  /\ bucket S1 "assembly" l = []).
Proof.
  unfold Footprint. intros H.
  bind_inv H. destruct x as [footprint1 S1].
  bind_inv H. rename x into S2.
  bind_inv H. destruct x as [footprint3 S3].
  bind_inv H. rename x into S4. injection H as _ <-.
  exists footprint1, S1. split; [exact Hx|].
  pose proof (_process_pins_appends _ _ _ _ _ Hx) as [_ Opins].
  assert (Hpours : appends_to ["pours"] S1 S2).
  { unfold _process_pours in Hx0.
    destruct (lookup3 footprint1 "layout" "pours" "shapes").
    - bind_inv Hx0. revert Hx0.
      apply (for_each_preserves (appends_to ["pours"])).
      + apply appends_to_refl.
      + apply appends_to_trans.
      + intros d s s'. apply import_shape_appends.
    - injection Hx0 as <-. apply appends_to_refl. }
  pose proof (_process_shapes_appends _ _ _ _ _ Hx1) as Hdirect.
  assert (Hassembly : appends_to ["assembly"] S3 S4).
  { unfold _process_assembly_shapes in Hx2.
    destruct (lookup3 footprint3 "layout" "assembly" "shapes").
    - bind_inv Hx2. revert Hx2.
      apply (for_each_preserves (appends_to ["assembly"])).
      + apply appends_to_refl.
      + apply appends_to_trans.
      + intros d s s'. apply import_shape_appends.
    - injection Hx2 as <-. apply appends_to_refl. }
  assert (Hall : appends_to ["pours"; "conductor"; "silkscreen";
                             "soldermask"; "assembly"] S1 S4).
  { eapply appends_to_trans; [|eapply appends_to_trans].
    - eapply appends_to_weaken; [|exact Hpours].
      intros k [<-|[]]; simpl; auto.
    - eapply appends_to_weaken; [|exact Hdirect].
      intros k [<-|[<-|[<-|[]]]]; simpl; auto.
    - eapply appends_to_weaken; [|exact Hassembly].
      intros k [<-|[]]; simpl; auto 10. }
  destruct Hall as [Hgrow Hout].
  repeat split.
  - intros l. apply Hout. simpl.
    intros [E|[E|[E|[E|[E|[]]]]]]; discriminate E.
  - intros l. apply Hout. simpl.
    intros [E|[E|[E|[E|[E|[]]]]]]; discriminate E.
  - intros l. apply Hgrow.
  - intros l. apply Hgrow.
  - rewrite Opins, bucket_init; [reflexivity|].
    simpl. intros [E|[E|[E|[E|[]]]]]; discriminate E.
  - rewrite Opins, bucket_init; [reflexivity|].
    simpl. intros [E|[E|[E|[E|[]]]]]; discriminate E.
  - rewrite Opins, bucket_init; [reflexivity|].
    simpl. intros [E|[E|[E|[E|[]]]]]; discriminate E.
Qed.

Lemma construction_order_witness :
  let st := Sample.outcome (Footprint Sample.env Sample.full) (VNone, []) in
  exists footprint1 S1,
    _process_pins Sample.env Sample.full init_shapes = Ok (footprint1, S1)
    /\ (forall l, bucket (snd st) "solderpaste" l = bucket S1 "solderpaste" l)
    /\ (forall l, bucket (snd st) "drills" l = bucket S1 "drills" l)
    /\ (forall l, exists imported,
           bucket (snd st) "conductor" l
           = (bucket S1 "conductor" l ++ imported)%list)
    /\ (forall l, exists imported,
           bucket (snd st) "soldermask" l
           = (bucket S1 "soldermask" l ++ imported)%list)
    /\ (forall l, bucket S1 "pours" l = []
                  /\ bucket S1 "silkscreen" l = []
                  /\ bucket S1 "assembly" l = []).
Proof.
  intros st.
  apply (construction_order Sample.env Sample.full (fst st) (snd st)).
  vm_compute. reflexivity.
Defined.

(** ** Labels and declared protective shapes *)

Lemma custom_shape_plain (env : Collaborators) (sheet layer : string)
      (pin_loc_p shape_loc_p : point) (pin_rotate sdict_ : value)
      (S S' : sheet_shapes) :
  custom_shape env sheet layer pin_loc_p shape_loc_p pin_rotate sdict_ S
  = Ok S' ->
  exists sh, unlabelled sh /\ S' = append_shape sheet layer sh S.
Proof.
  unfold custom_shape. intros H. repeat bind_inv H. injection H as <-.
  eexists. split; [|reflexivity]. split; reflexivity.
Qed.

Lemma default_shape_plain (env : Collaborators) (sheet layer : string)
      (decl : value) (pad_shape : shape) (S S' : sheet_shapes) :
  default_shape env sheet layer decl pad_shape S = Ok S' ->
  exists sh, unlabelled sh /\ S' = append_shape sheet layer sh S.
Proof.
  unfold default_shape. intros H. repeat bind_inv H. injection H as <-.
  eexists. split; [|reflexivity]. split; reflexivity.
Qed.

(** A loop whose body appends one shape satisfying [P] to the bucket of
    [sheet] and [layer]: the bucket grows by one such shape per element, in
    order, and no other bucket changes. *)
Lemma for_each_appends_on {A : Type} (P : shape -> Prop) (sheet layer : string)
      (body : A -> sheet_shapes -> result sheet_shapes) :
  (forall x s s',
      body x s = Ok s' ->
      exists sh, P sh /\ s' = append_shape sheet layer sh s) ->
  forall xs S S',
    for_each body xs S = Ok S' ->
    exists news,
      bucket S' sheet layer = (bucket S sheet layer ++ news)%list
      /\ Forall P news
      /\ List.length news = List.length xs
      /\ forall sheet' l',
           sheet' <> sheet \/ l' <> layer ->
           bucket S' sheet' l' = bucket S sheet' l'.
Proof.
  intros Hbody xs.
  induction xs as [|x xs IH]; simpl; intros S S' H.
  - injection H as <-. exists []. rewrite app_nil_r. auto.
  - bind_inv H. destruct (Hbody _ _ _ Hx) as (sh & HP & ->).
    destruct (IH _ _ H) as (news & Hnews & HPs & Hlen & Hout).
    exists (sh :: news). rewrite Hnews, bucket_append_same, <- app_assoc.
    repeat split; auto.
    + simpl. now rewrite Hlen.
    + intros sheet' l' Hne. rewrite (Hout _ _ Hne).
      now apply bucket_append_other.
Qed.

Lemma process_sheet_emits (env : Collaborators) (layer : string)
      (pin_loc_p shape_loc_p : point) (pin_rotate decl : value)
      (pad_shape : shape) (sheet : string) (S S' : sheet_shapes) :
  process_sheet env layer pin_loc_p shape_loc_p pin_rotate decl
                pad_shape sheet S = Ok S' ->
  exists news,
    bucket S' sheet layer = (bucket S sheet layer ++ news)%list
    /\ Forall unlabelled news
    /\ forall sheet' l',
         sheet' <> sheet \/ l' <> layer ->
         bucket S' sheet' l' = bucket S sheet' l'.
Proof.
  unfold process_sheet. intros H. bind_inv H.
  assert (Hnone : forall S0 : sheet_shapes,
             Ok S = Ok S0 ->
             exists news,
               bucket S0 sheet layer = (bucket S sheet layer ++ news)%list
               /\ Forall unlabelled news
               /\ forall sheet' l',
                    sheet' <> sheet \/ l' <> layer ->
                    bucket S0 sheet' l' = bucket S sheet' l').
  { intros S0 E. injection E as <-. exists []. rewrite app_nil_r. auto. }
  assert (Hiter : forall v,
             (items <- py_iter v ;;
              for_each (custom_shape env sheet layer pin_loc_p shape_loc_p
                                     pin_rotate) items S) = Ok S' ->
             exists news,
               bucket S' sheet layer = (bucket S sheet layer ++ news)%list
               /\ Forall unlabelled news
               /\ forall sheet' l',
                    sheet' <> sheet \/ l' <> layer ->
                    bucket S' sheet' l' = bucket S sheet' l').
  { intros v Hv. bind_inv Hv.
    destruct (for_each_appends_on unlabelled sheet layer _
                (fun y s s' => custom_shape_plain env sheet layer pin_loc_p
                                 shape_loc_p pin_rotate y s s')
                _ _ _ Hv) as (news & H1 & H2 & _ & H3).
    exists news. auto. }
  destruct x as [| | | |l|d|]; eauto.
  - apply default_shape_plain in H as (sh & Hsh & ->).
    exists [sh]. split; [apply bucket_append_same|].
    split; [now constructor|].
    intros sheet' l' Hne. now apply bucket_append_other.
  - destruct l; eauto.
  - destruct d; eauto.
Qed.

(** X6.  One visit of a layer by the pin expander, for a pin with the
    layout [p].  The conductor shape put on the layer is built from the
    declaration; it carries a label exactly when the pin's ["show-label"] is
    absent or is [True] itself, the label being the pin's ["label"] or else
    the pin name, with the style class ["pad-labels"].  The shapes put on
    soldermask and solderpaste during the visit carry no label. *)
Theorem pad_label_on_conductor_only
        (env : Collaborators) (pin_name : value) (p : list (string * value))
        (pin_loc_p shape_loc_p : point) (pin_rotate decl : value)
        (layer : string) (S S' : sheet_shapes) :
  process_layer env pin_name (VDict p) pin_loc_p shape_loc_p pin_rotate
                decl layer S = Ok S' ->
  let pad_shape :=
    if is_True (field "show-label" (VBool true) p)
    then mkShape decl (Some (field "label" pin_name p)) (Some "pad-labels")
    else Shape decl in
  bucket S' "conductor" layer = (bucket S "conductor" layer ++ [pad_shape])%list
  /\ forall sheet,
       sheet = "soldermask" \/ sheet = "solderpaste" ->
       exists news,
         bucket S' sheet layer = (bucket S sheet layer ++ news)%list
         /\ Forall unlabelled news.
Proof.
  intros H pad_shape. unfold process_layer in H. cbn [py_get bind] in H.
  fold (field "show-label" (VBool true) p) in H.
  fold (field "label" pin_name p) in H.
  assert (Hrun : for_each (process_sheet env layer pin_loc_p shape_loc_p
                                         pin_rotate decl pad_shape)
                          ["soldermask"; "solderpaste"]
                          (append_shape "conductor" layer pad_shape S)
                 = Ok S').
  { unfold pad_shape.
    destruct (is_True (field "show-label" (VBool true) p)); exact H. }
  clear H. rename Hrun into H.
  cbn [bind for_each] in H. bind_inv H. bind_inv H. injection H as <-.
  destruct (process_sheet_emits _ _ _ _ _ _ _ _ _ _ Hx)
    as (n1 & Hn1 & HP1 & Ho1).
  destruct (process_sheet_emits _ _ _ _ _ _ _ _ _ _ Hx0)
    as (n2 & Hn2 & HP2 & Ho2).
  split.
  - rewrite Ho2, Ho1 by (left; discriminate). apply bucket_append_same.
  - intros sheet [->| ->].
    + exists n1. split; [|exact HP1].
      rewrite Ho2, Hn1 by (left; discriminate).
      rewrite bucket_append_other by (left; discriminate). reflexivity.
    + exists n2. split; [|exact HP2].
      rewrite Hn2, Ho1 by (left; discriminate).
      rewrite bucket_append_other by (left; discriminate). reflexivity.
Qed.

Lemma pad_label_on_conductor_only_witness :
  let decl := VDict (Sample.rect 1 1) in
  let p := [("show-label", VInt 1); ("label", VStr "A")] in
  let origin_p := mkPoint (NInt 0) (NInt 0) in
  let S' := Sample.outcome
              (process_layer Sample.env (VStr "P1") (VDict p) origin_p origin_p
                             (VInt 0) decl "top" init_shapes) [] in
  bucket S' "conductor" "top"
  = (bucket init_shapes "conductor" "top" ++ [Shape decl])%list
  /\ forall sheet,
       sheet = "soldermask" \/ sheet = "solderpaste" ->
       exists news,
         bucket S' sheet "top" = (bucket init_shapes sheet "top" ++ news)%list
         /\ Forall unlabelled news.
Proof.
  intros decl p origin_p S'.
  apply (pad_label_on_conductor_only Sample.env (VStr "P1") p origin_p
           origin_p (VInt 0) decl "top" init_shapes S').
  vm_compute. reflexivity.
Defined.

Lemma bind_Ok_r {A : Type} (m : result A) : bind m Ok = m.
Proof. destruct m; reflexivity. Qed.

(** X7.  The two forms of a declared protective shape.  A block that is a
    single dictionary with at least one key is treated as the one-element
    list of it: both give the run of [custom_shape] on that dictionary.  An
    empty dictionary as the block places nothing, whereas a list holding an
    empty dictionary is a declared shape like any other. *)
Theorem single_override_as_list
        (env : Collaborators) (layer : string) (pin_loc_p shape_loc_p : point)
        (pin_rotate : value) (d1 d2 : list (string * value))
        (pad_shape : shape) (sheet : string) (o : list (string * value))
        (S : sheet_shapes) :
  Dict.get sheet d1 = Some (VDict o) ->
  Dict.get sheet d2 = Some (VList [VDict o]) ->
  (o <> [] ->
   process_sheet env layer pin_loc_p shape_loc_p pin_rotate (VDict d1)
                 pad_shape sheet S
   = custom_shape env sheet layer pin_loc_p shape_loc_p pin_rotate
                  (VDict o) S)
  /\ (o = [] ->
      process_sheet env layer pin_loc_p shape_loc_p pin_rotate (VDict d1)
                    pad_shape sheet S = Ok S)
  /\ process_sheet env layer pin_loc_p shape_loc_p pin_rotate (VDict d2)
                   pad_shape sheet S
     = custom_shape env sheet layer pin_loc_p shape_loc_p pin_rotate
                    (VDict o) S.
Proof.
  intros H1 H2. unfold process_sheet. cbn [py_get bind].
  rewrite H1, H2. cbn [py_iter bind for_each].
  repeat split.
  - intros Hne. destruct o as [|kv o]; [contradiction|].
    cbn [py_iter bind for_each]. apply bind_Ok_r.
  - intros ->. reflexivity.
  - apply bind_Ok_r.
Qed.

Lemma single_override_as_list_witness :
  let o := Sample.rect 2 2 in
  let d1 := (Sample.rect 1 1 ++ [("soldermask", VDict o)])%list in
  let d2 := (Sample.rect 1 1 ++ [("soldermask", VList [VDict o])])%list in
  let p := mkPoint (NInt 10) (NInt 0) in
  process_sheet Sample.env "top" p p (VInt 0) (VDict d1) (Shape (VDict d1))
                "soldermask" init_shapes
  = process_sheet Sample.env "top" p p (VInt 0) (VDict d2) (Shape (VDict d1))
                  "soldermask" init_shapes.
Proof.
  intros o d1 d2 p.
  destruct (single_override_as_list Sample.env "top" p p (VInt 0) d1 d2
              (Shape (VDict d1)) "soldermask" o init_shapes
              eq_refl eq_refl) as (Hdict & _ & Hlist).
  rewrite Hlist. apply Hdict. discriminate.
Defined.

(** X8.  A protective block that is a list of [k] declarations, on one
    layer: when the run returns, the bucket of the sheet and layer has grown
    by exactly [k] shapes, none carrying a label, and no other bucket has
    changed. *)
Theorem declared_protective_shapes
        (env : Collaborators) (layer : string) (pin_loc_p shape_loc_p : point)
        (pin_rotate : value) (d : list (string * value)) (pad_shape : shape)
        (sheet : string) (os : list value) (S S' : sheet_shapes) :
  Dict.get sheet d = Some (VList os) ->
  process_sheet env layer pin_loc_p shape_loc_p pin_rotate (VDict d)
                pad_shape sheet S = Ok S' ->
  exists news,
    bucket S' sheet layer = (bucket S sheet layer ++ news)%list
    /\ List.length news = List.length os
    /\ Forall unlabelled news
    /\ forall sheet' l',
         sheet' <> sheet \/ l' <> layer ->
         bucket S' sheet' l' = bucket S sheet' l'.
Proof.
  intros Hos H. unfold process_sheet in H. cbn [py_get bind] in H.
  rewrite Hos in H.
  assert (Hloop : for_each (custom_shape env sheet layer pin_loc_p shape_loc_p
                                         pin_rotate) os S = Ok S').
  { destruct os; [|exact H]. exact H. }
  destruct (for_each_appends_on unlabelled sheet layer _
              (fun y s s' => custom_shape_plain env sheet layer pin_loc_p
                               shape_loc_p pin_rotate y s s')
              _ _ _ Hloop) as (news & H1 & H2 & H3 & H4).
  exists news. auto.
Qed.

Lemma declared_protective_shapes_witness :
  let os := [VDict (Sample.rect 2 2); VDict (Sample.rect 3 3)] in
  let d := (Sample.rect 1 1 ++ [("solderpaste", VList os)])%list in
  let p := mkPoint (NInt 10) (NInt 0) in
  let S' := Sample.outcome
              (process_sheet Sample.env "top" p p (VInt 0) (VDict d)
                             (Shape (VDict d)) "solderpaste" init_shapes) [] in
  exists news,
    bucket S' "solderpaste" "top"
    = (bucket init_shapes "solderpaste" "top" ++ news)%list
    /\ List.length news = 2%nat
    /\ Forall unlabelled news
    /\ forall sheet' l',
         sheet' <> "solderpaste" \/ l' <> "top" ->
         bucket S' sheet' l' = bucket init_shapes sheet' l'.
Proof.
  intros os d p S'.
  apply (declared_protective_shapes Sample.env "top" p p (VInt 0) d
           (Shape (VDict d)) "solderpaste" os init_shapes S' eq_refl).
  vm_compute. reflexivity.
Defined.

(** ** The configuration *)

Lemma for_each_ext_in {A S : Type} (f g : A -> S -> result S) (xs : list A) :
  (forall x, In x xs -> forall s, f x s = g x s) ->
  forall s, for_each f xs s = for_each g xs s.
Proof.
  induction xs as [|x xs IH]; simpl; intros Hfg s; [reflexivity|].
  rewrite Hfg by now left.
  destruct (g x s); simpl; [|reflexivity].
  apply IH. intros y Hy. apply Hfg. now right.
Qed.

Lemma process_sheet_reconfigured
      (env : Collaborators) (get_type' getScale' : shape -> value)
      (cfg' : value) (layer : string) (pin_loc_p shape_loc_p : point)
      (pin_rotate : value) (d : list (string * value)) (pad_shape : shape)
      (sheet : string) (S : sheet_shapes) :
  field sheet VNone d <> VNone ->
  process_sheet (reconfigured env get_type' getScale' cfg') layer pin_loc_p
                shape_loc_p pin_rotate (VDict d) pad_shape sheet S
  = process_sheet env layer pin_loc_p shape_loc_p pin_rotate (VDict d)
                  pad_shape sheet S.
Proof.
  intros Hblock. unfold process_sheet. cbn [py_get bind].
  unfold field in Hblock.
  destruct (Dict.get sheet d) as [[]|]; try reflexivity; congruence.
Qed.

(** X9.  A pad shape that declares both its soldermask block and its
    solderpaste block (shapes, or an empty block) is expanded without the
    configuration and without the type and scale queries of the shape
    kernel: the run is the same under any other configuration and any other
    answers to the queries. *)
Theorem declared_blocks_bypass_configuration
        (env : Collaborators) (get_type' getScale' : shape -> value)
        (cfg' : value) (pin_name pin_dict : value) (pin_loc_p : point)
        (pin_rotate : value) (d : list (string * value)) (S : sheet_shapes) :
  field "soldermask" VNone d <> VNone ->
  field "solderpaste" VNone d <> VNone ->
  process_pad_shape (reconfigured env get_type' getScale' cfg') pin_name
                    pin_dict pin_loc_p pin_rotate (VDict d) S
  = process_pad_shape env pin_name pin_dict pin_loc_p pin_rotate (VDict d) S.
Proof.
  intros Hmask Hpaste. unfold process_pad_shape.
  cbn [py_get bind getExtendedLayerList reconfigured].
  destruct (as_point _) as [shape_loc_p|]; [|reflexivity]. cbn [bind].
  destruct (point_add pin_loc_p shape_loc_p) as [l|]; [|reflexivity].
  cbn [bind py_setitem py_get].
  destruct (py_add _ pin_rotate) as [r'|]; [|reflexivity]. cbn [bind].
  set (d' := Dict.set "rotate" r' (Dict.set "location" (VPoint l) d)).
  assert (Hmask' : field "soldermask" VNone d' <> VNone).
  { unfold field, d'. now rewrite !get_set_other by discriminate. }
  assert (Hpaste' : field "solderpaste" VNone d' <> VNone).
  { unfold field, d'. now rewrite !get_set_other by discriminate. }
  rewrite (for_each_ext_in
             (process_layer (reconfigured env get_type' getScale' cfg')
                            pin_name pin_dict pin_loc_p shape_loc_p pin_rotate
                            (VDict d'))
             (process_layer env pin_name pin_dict pin_loc_p shape_loc_p
                            pin_rotate (VDict d'))); [reflexivity|].
  intros layer _ s. unfold process_layer.
  destruct (py_get pin_dict "show-label" (VBool true)) as [show|];
    [|reflexivity].
  cbn [bind].
  destruct (if is_True show
            then lbl <- py_get pin_dict "label" pin_name ;;
                 Ok (set_label_style_class "pad-labels"
                       (set_label lbl (Shape (VDict d'))))
            else Ok (Shape (VDict d'))) as [pad_shape|]; [|reflexivity].
  cbn [bind]. apply for_each_ext_in.
  intros sheet [<-|[<-|[]]] s0; now apply process_sheet_reconfigured.
Qed.

Lemma declared_blocks_bypass_configuration_witness :
  let d := match Sample.masked_shape_decl with VDict d => d | _ => [] end in
  let p := mkPoint (NInt 10) (NInt 0) in
  process_pad_shape (reconfigured Sample.env (fun _ => VNone) (fun _ => VNone)
                                  VNone)
                    (VStr "P1") (VDict []) p (VInt 0) (VDict d) init_shapes
  = process_pad_shape Sample.env (VStr "P1") (VDict []) p (VInt 0) (VDict d)
                      init_shapes.
Proof.
  intros d p.
  apply (declared_blocks_bypass_configuration Sample.env (fun _ => VNone)
           (fun _ => VNone) VNone (VStr "P1") (VDict []) p (VInt 0) d
           init_shapes); discriminate.
Defined.

(** ** The direct importers *)

Lemma place_on_layers_bucket (sheet : string) (decl : value)
      (layers : list string) (S : sheet_shapes) (l : string) :
  bucket (place_on_layers sheet decl layers S) sheet l
  = (bucket S sheet l ++ repeat (Shape decl) (visits l layers))%list.
Proof.
  unfold place_on_layers, visits. revert S.
  induction layers as [|layer layers IH]; simpl; intros S.
  - now rewrite app_nil_r.
  - rewrite IH, bucket_append.
    destruct (String.eqb l layer); simpl; [|reflexivity].
    now rewrite <- app_assoc.
Qed.

Lemma import_layers_unchanged (sheet : string) (d : list (string * value))
      (layers : list string) :
  (exists t, Dict.get "type" d = Some t /\ eq_str t "text" = false)
  \/ ~ In "bottom" layers ->
  forall S,
    for_each (import_on_layer sheet) layers (VDict d, S)
    = Ok (VDict d, place_on_layers sheet (VDict d) layers S).
Proof.
  intros Hcase. induction layers as [|layer layers IH]; intros S;
    [reflexivity|].
  assert (Hstep : import_on_layer sheet layer (VDict d, S)
                  = Ok (VDict d, append_shape sheet layer (Shape (VDict d)) S)).
  { destruct (string_dec layer "bottom") as [->|Hne].
    - destruct Hcase as [(t & Ht & Htext)|Hout].
      + unfold import_on_layer. cbn [String.eqb Ascii.eqb Bool.eqb py_getitem].
        rewrite Ht. cbn [bind]. now rewrite Htext.
      + exfalso. apply Hout. now left.
    - now apply import_on_layer_other. }
  cbn [for_each]. rewrite Hstep. cbn [bind]. rewrite IH; [reflexivity|].
  destruct Hcase as [Ht|Hout]; [now left|right].
  intros Hin. apply Hout. now right.
Qed.

(** X11.  The importer of conductor, silkscreen and soldermask shapes leaves
    a declaration as it is, and places it like the importer of pours does,
    whenever the declaration has a type other than ["text"] or none of its
    layers is ["bottom"]. *)
Theorem sheet_import_leaves_declaration
        (env : Collaborators) (sheet : string) (d : list (string * value))
        (S : sheet_shapes) :
  let layers := getExtendedLayerList env
                  (py_or (field "layers" VNone d) (VList [VStr "top"])) in
  (exists t, Dict.get "type" d = Some t /\ eq_str t "text" = false)
  \/ ~ In "bottom" layers ->
  import_sheet_shape env sheet (VDict d) S
  = Ok (VDict d, place_on_layers sheet (VDict d) layers S).
Proof.
  intros layers Hcase. unfold import_sheet_shape. cbn [py_get bind].
  fold (field "layers" VNone d). fold layers.
  now apply import_layers_unchanged.
Qed.

Lemma sheet_import_leaves_declaration_witness :
  let d := (Sample.rect 3 3 ++ [("layers", VList [VStr "bottom"])])%list in
  import_sheet_shape Sample.env "conductor" (VDict d) init_shapes
  = Ok (VDict d, place_on_layers "conductor" (VDict d) ["bottom"] init_shapes).
Proof.
  intros d.
  apply (sheet_import_leaves_declaration Sample.env "conductor" d init_shapes).
  left. exists (VStr "rect"). split; reflexivity.
Defined.

(** X12.  The importer of conductor, silkscreen and soldermask shapes reads
    the type of a declaration on the bottom layer only: a declaration
    without a type raises [KeyError] when one of its layers is ["bottom"],
    the layers before it having been served; without the bottom layer it is
    placed (X11). *)
Theorem bottom_layer_needs_type
        (env : Collaborators) (sheet : string) (d : list (string * value))
        (S : sheet_shapes) :
  Dict.get "type" d = None ->
  In "bottom" (getExtendedLayerList env
                 (py_or (field "layers" VNone d) (VList [VStr "top"]))) ->
  import_sheet_shape env sheet (VDict d) S = Raise KeyError.
Proof.
  intros Htype. unfold import_sheet_shape. cbn [py_get bind].
  fold (field "layers" VNone d).
  generalize (getExtendedLayerList env
                (py_or (field "layers" VNone d) (VList [VStr "top"]))).
  intros layers. revert S.
  induction layers as [|layer layers IH]; intros S Hin; [contradiction|].
  cbn [for_each].
  destruct (string_dec layer "bottom") as [->|Hne].
  - unfold import_on_layer. cbn [String.eqb Ascii.eqb Bool.eqb py_getitem].
    now rewrite Htype.
  - rewrite import_on_layer_other by exact Hne. cbn [bind].
    apply IH. destruct Hin as [E|Hin]; [congruence|exact Hin].
Qed.

Lemma bottom_layer_needs_type_witness :
  import_sheet_shape Sample.env "silkscreen"
                     (VDict [("layers", VList [VStr "top"; VStr "bottom"])])
                     init_shapes
  = Raise KeyError.
Proof.
  apply (bottom_layer_needs_type Sample.env "silkscreen"
           [("layers", VList [VStr "top"; VStr "bottom"])] init_shapes).
  - reflexivity.
  - simpl. auto.
Defined.

(** ** One pin *)

Lemma process_pin_inv (env : Collaborators)
      (pins pads layout pad : list (string * value)) (name pad_name : string)
      (entry pads' : value) (S S' : sheet_shapes) :
  Dict.get name pins = Some entry ->
  py_getitem entry "layout" = Ok (VDict layout) ->
  Dict.get "pad" layout = Some (VStr pad_name) ->
  Dict.get pad_name pads = Some (VDict pad) ->
  process_pin env (VDict pins) (VStr name) (VDict pads, S) = Ok (pads', S') ->
  exists pin_loc_p items items' S1 ditems,
    Point (field "location" origin layout) = Ok pin_loc_p
    /\ py_iter (field "shapes" (VList []) pad) = Ok items
    /\ for_each_upd (process_pad_shape env (VStr name) (VDict layout) pin_loc_p
                                       (field "rotate" (VInt 0) layout))
                    items S = Ok (items', S1)
    /\ pads' = VDict (Dict.set pad_name
                               (py_store (VDict pad) (VStr "shapes")
                                         (updated (field "shapes" (VList []) pad)
                                                  items'))
                               pads)
    /\ py_iter (field "drills" (VList []) pad) = Ok ditems
    /\ for_each (process_drill pin_loc_p) ditems S1 = Ok S'.
Proof.
  intros Hentry Hlayout Hpad Hpads H. unfold process_pin in H.
  cbn [py_subscript py_getitem] in H. rewrite Hentry in H. cbn [bind] in H.
  rewrite Hlayout in H. cbn [bind py_get py_getitem] in H.
  fold (field "location" origin layout) in H.
  bind_inv H. rename x into pin_loc_p.
  rewrite Hpad in H. cbn [bind py_subscript py_getitem] in H.
  rewrite Hpads in H. cbn [bind py_get] in H.
  fold (field "rotate" (VInt 0) layout) in H.
  fold (field "shapes" (VList []) pad) in H.
  bind_inv H. rename x into items. bind_inv H. destruct x as [items' S1].
  assert (Hdrills :
            py_get (py_store (VDict pad) (VStr "shapes")
                             (updated (field "shapes" (VList []) pad) items'))
                   "drills" (VList [])
            = Ok (field "drills" (VList []) pad)).
  { cbn [py_store]. destruct (Dict.mem "shapes" pad); cbn [py_get];
      [|reflexivity].
    unfold field. now rewrite get_set_other by discriminate. }
  rewrite Hdrills in H. cbn [bind] in H.
  bind_inv H. rename x into ditems. bind_inv H. injection H as <- <-.
  exists pin_loc_p, items, items', S1, ditems.
  repeat split; auto.
  unfold Dict.mem at 1. rewrite Hpads. reflexivity.
Qed.

(** X13.  One pin, referring to the pad [pad_name] of the pad table.  When
    the pin has been processed, the pad table differs from the one before in
    the entry of that pad only, and that entry in its ["shapes"] only: every
    other pad, and the drills and every other key of the pad itself, are as
    they were. *)
Theorem pin_touches_its_pad_shapes_only
        (env : Collaborators)
        (pins pads layout pad : list (string * value)) (name pad_name : string)
        (entry pads' : value) (S S' : sheet_shapes) :
  Dict.get name pins = Some entry ->
  py_getitem entry "layout" = Ok (VDict layout) ->
  Dict.get "pad" layout = Some (VStr pad_name) ->
  Dict.get pad_name pads = Some (VDict pad) ->
  process_pin env (VDict pins) (VStr name) (VDict pads, S) = Ok (pads', S') ->
  exists pad',
    pads' = VDict (Dict.set pad_name (VDict pad') pads)
    /\ (forall k, k <> "shapes" -> Dict.get k pad' = Dict.get k pad)
    /\ (forall k, k <> pad_name ->
                  Dict.get k (Dict.set pad_name (VDict pad') pads)
                  = Dict.get k pads).
Proof.
  intros Hentry Hlayout Hpad Hpads H.
  destruct (process_pin_inv env pins pads layout pad name pad_name entry pads'
              S S' Hentry Hlayout Hpad Hpads H)
    as (pin_loc_p & items & items' & S1 & ditems & _ & _ & _ & -> & _).
  cbn [py_store]. destruct (Dict.mem "shapes" pad).
  - eexists. split; [reflexivity|]. split.
    + intros k Hk. apply get_set_other. congruence.
    + intros k Hk. apply get_set_other. congruence.
  - exists pad. split; [reflexivity|]. split; [reflexivity|].
    intros k Hk. apply get_set_other. congruence.
Qed.

(** X14.  One pin on a pad with the list [ds] of drills.  When the pin has
    been processed, the bucket ["top"] of the sheet drills has grown by
    exactly one shape per drill; no other bucket of the sheet drills has
    changed, whatever the layers of the pad's shapes. *)
Theorem pin_places_its_drills
        (env : Collaborators)
        (pins pads layout pad : list (string * value)) (name pad_name : string)
        (entry pads' : value) (ds : list value) (S S' : sheet_shapes) :
  Dict.get name pins = Some entry ->
  py_getitem entry "layout" = Ok (VDict layout) ->
  Dict.get "pad" layout = Some (VStr pad_name) ->
  Dict.get pad_name pads = Some (VDict pad) ->
  field "drills" (VList []) pad = VList ds ->
  process_pin env (VDict pins) (VStr name) (VDict pads, S) = Ok (pads', S') ->
  exists news,
    bucket S' "drills" "top" = (bucket S "drills" "top" ++ news)%list
    /\ List.length news = List.length ds
    /\ forall l, l <> "top" -> bucket S' "drills" l = bucket S "drills" l.
Proof.
  intros Hentry Hlayout Hpad Hpads Hds H.
  destruct (process_pin_inv env pins pads layout pad name pad_name entry pads'
              S S' Hentry Hlayout Hpad Hpads H)
    as (pin_loc_p & items & items' & S1 & ditems & _ & _ & Hshapes & _
        & Hiter & Hdrills).
  rewrite Hds in Hiter. injection Hiter as <-.
  assert (Hframe : forall l, bucket S1 "drills" l = bucket S "drills" l).
  { intros l. revert Hshapes.
    apply (for_each_upd_preserves
             (fun A B => bucket B "drills" l = bucket A "drills" l)).
    - reflexivity.
    - intros a b c Hab Hbc. congruence.
    - intros d s d' s' Hd. apply process_pad_shape_appends in Hd as [_ Hout].
      apply Hout. simpl. intros [E|[E|[E|[]]]]; discriminate E. }
  destruct (for_each_appends_on (fun _ => True) "drills" "top" _
              (fun y s s' Hy =>
                 match process_drill_appends pin_loc_p y s s' Hy with
                 | ex_intro _ sh Hsh => ex_intro _ sh (conj I Hsh)
                 end)
              _ _ _ Hdrills) as (news & Hnews & _ & Hlen & Hout).
  exists news. rewrite Hnews, Hframe. repeat split; auto.
  intros l Hl. rewrite Hout by now right. apply Hframe.
Qed.

Lemma pin_places_its_drills_witness :
  let pins := [("P1", Sample.pin 10 0 "PAD1")] in
  let pad := [ ("shapes", VList [VDict (Sample.rect 1 1)]);
               ("drills", VList [VDict Sample.drill_decl]) ] in
  let pads := [("PAD1", VDict pad)] in
  let st := Sample.outcome
              (process_pin Sample.env (VDict pins) (VStr "P1")
                           (VDict pads, init_shapes)) (VNone, []) in
  exists news,
    bucket (snd st) "drills" "top"
    = (bucket init_shapes "drills" "top" ++ news)%list
    /\ List.length news = 1%nat
    /\ forall l, l <> "top" ->
                 bucket (snd st) "drills" l = bucket init_shapes "drills" l.
Proof.
  intros pins pad pads st.
  apply (pin_places_its_drills Sample.env pins pads
           [("location", VList [VInt 10; VInt 0]); ("pad", VStr "PAD1")]
           pad "P1" "PAD1" (Sample.pin 10 0 "PAD1") (fst st)
           [VDict Sample.drill_decl] init_shapes (snd st));
    vm_compute; reflexivity.
Defined.

Lemma pin_touches_its_pad_shapes_only_witness :
  let pins := [("P1", Sample.pin 10 0 "PAD1")] in
  let pad := [ ("shapes", VList [VDict (Sample.rect 1 1)]);
               ("drills", VList [VDict Sample.drill_decl]) ] in
  let pads := [("PAD1", VDict pad); ("PAD2", VDict pad)] in
  let st := Sample.outcome
              (process_pin Sample.env (VDict pins) (VStr "P1")
                           (VDict pads, init_shapes)) (VNone, []) in
  exists pad',
    fst st = VDict (Dict.set "PAD1" (VDict pad') pads)
    /\ (forall k, k <> "shapes" -> Dict.get k pad' = Dict.get k pad)
    /\ (forall k, k <> "PAD1" ->
                  Dict.get k (Dict.set "PAD1" (VDict pad') pads)
                  = Dict.get k pads).
Proof.
  intros pins pad pads st.
  apply (pin_touches_its_pad_shapes_only Sample.env pins pads
           [("location", VList [VInt 10; VInt 0]); ("pad", VStr "PAD1")]
           pad "P1" "PAD1" (Sample.pin 10 0 "PAD1") (fst st)
           init_shapes (snd st));
    vm_compute; reflexivity.
Defined.

(** ** Missing and empty input *)

(** X15.  The default soldermask or solderpaste shape of a pad shape reads
    the dimension its rule changes: with the configured distances present, a
    rect without ["width"], a rect with a width but without ["height"], and
    a circle without ["diameter"] make the run raise [KeyError]. *)
Theorem default_shape_needs_dimension
        (env : Collaborators) (layer : string) (pin_loc_p shape_loc_p : point)
        (pin_rotate : value) (d : list (string * value)) (pad_shape : shape)
        (sheet : string) (S : sheet_shapes) (distances : value)
        (c : list (string * value)) :
  field sheet VNone d = VNone ->
  py_getitem (cfg env) "distances" = Ok distances ->
  py_getitem distances sheet = Ok (VDict c) ->
  let run := process_sheet env layer pin_loc_p shape_loc_p pin_rotate
                           (VDict d) pad_shape sheet S in
  let type := get_type env pad_shape in
  (eq_str type "rect" = true -> Dict.get "width" d = None ->
   run = Raise KeyError)
  /\ (eq_str type "rect" = true ->
      forall w b w',
        Dict.get "width" d = Some w ->
        Dict.get "rect-buffer" c = Some b ->
        py_add w b = Ok w' ->
        Dict.get "height" d = None ->
        run = Raise KeyError)
  /\ (eq_str type "circle" = true -> Dict.get "diameter" d = None ->
      run = Raise KeyError).
Proof.
  intros Hnone Hdist Hdef run type.
  assert (Hrun : run = (sdict <- apply_modifier env pad_shape (VDict c)
                                                (VDict d) ;;
                        Ok (append_shape sheet layer (Shape sdict) S))).
  { unfold run. rewrite process_sheet_default by exact Hnone.
    unfold default_shape. cbn [py_copy bind]. rewrite Hdist. cbn [bind].
    rewrite Hdef. reflexivity. }
  rewrite Hrun. unfold apply_modifier. fold type.
  repeat split.
  - intros Ht Hw. rewrite (eq_str_true _ _ Ht).
    cbn [eq_str String.eqb Ascii.eqb Bool.eqb]. unfold add_buffer.
    cbn [py_getitem]. now rewrite Hw.
  - intros Ht w b w' Hw Hb Hw' Hh. rewrite (eq_str_true _ _ Ht).
    cbn [eq_str String.eqb Ascii.eqb Bool.eqb].
    rewrite (add_buffer_run d "width" (VDict c) "rect-buffer" w b w');
      [|exact Hw|cbn [py_getitem]; now rewrite Hb|exact Hw'].
    cbn [bind]. unfold add_buffer. cbn [py_getitem].
    rewrite get_set_other by discriminate. now rewrite Hh.
  - intros Ht Hx. rewrite (eq_str_true _ _ Ht).
    cbn [eq_str String.eqb Ascii.eqb Bool.eqb]. unfold add_buffer.
    cbn [py_getitem]. now rewrite Hx.
Qed.

Lemma default_shape_needs_dimension_witness :
  let d := [("type", VStr "rect"); ("height", VInt 1)] in
  let p := mkPoint (NInt 10) (NInt 0) in
  process_sheet Sample.env "top" p p (VInt 0) (VDict d) (Shape (VDict d))
                "soldermask" init_shapes
  = Raise KeyError.
Proof.
  intros d p.
  apply (proj1 (default_shape_needs_dimension Sample.env "top" p p (VInt 0) d
                  (Shape (VDict d)) "soldermask" init_shapes Sample.distances
                  [ ("path-scale", VInt 1); ("rect-buffer", VFloat 0.1);
                    ("circle-buffer", VFloat 0.1) ]
                  eq_refl eq_refl eq_refl));
    reflexivity.
Defined.

(** X16.  A footprint without pins, or with an empty dictionary of pins:
    the pin expander places nothing and leaves the document as it is,
    whatever pads the document declares. *)
Theorem no_pins_no_shapes (env : Collaborators) (f : list (string * value))
        (S : sheet_shapes) :
  Dict.get "pins" f = None \/ Dict.get "pins" f = Some (VDict []) ->
  _process_pins env (VDict f) S = Ok (VDict f, S).
Proof.
  intros Hpins. unfold _process_pins. cbn [py_get bind].
  assert (Hstore : py_store (VDict f) (VStr "pads")
                            (match Dict.get "pads" f with
                             | Some v => v
                             | None => VDict []
                             end) = VDict f).
  { cbn [py_store]. unfold Dict.mem.
    destruct (Dict.get "pads" f) as [v|] eqn:E; [|reflexivity].
    now rewrite set_get_id. }
  destruct Hpins as [-> | ->]; cbn [py_iter Dict.keys map bind for_each];
    now rewrite Hstore.
Qed.

Lemma no_pins_no_shapes_witness :
  let f := [("pads", VDict [("PAD1", VDict [("shapes",
                                              VList [Sample.pad_shape_decl])])])]
  in
  _process_pins Sample.env (VDict f) init_shapes = Ok (VDict f, init_shapes).
Proof.
  intros f.
  apply (no_pins_no_shapes Sample.env f init_shapes). now left.
Defined.

(** X17.  A section whose ["shapes"] is null.  Under ["pours"] and under
    ["assembly"] the importer raises [TypeError]: only the lookup is
    guarded, not the loop.  Under ["conductor"], ["silkscreen"] or
    ["soldermask"] a ["shapes"] that is null, or has any other false truth
    value, or cannot be looked up, means no shapes: the document and the
    accumulator are returned as they are. *)
Theorem null_shapes_section (env : Collaborators) (footprint : value)
        (S : sheet_shapes) :
  (lookup3 footprint "layout" "pours" "shapes" = Ok VNone ->
   _process_pours env footprint S = Raise TypeError)
  /\ (lookup3 footprint "layout" "assembly" "shapes" = Ok VNone ->
      _process_assembly_shapes env footprint S = Raise TypeError)
  /\ (forall sheet v,
         lookup3 footprint "layout" sheet "shapes" = Ok v ->
         truthy v = false ->
         process_sheet_shapes env sheet (footprint, S) = Ok (footprint, S))
  /\ (forall sheet e,
         lookup3 footprint "layout" sheet "shapes" = Raise e ->
         process_sheet_shapes env sheet (footprint, S) = Ok (footprint, S)).
Proof.
  repeat split.
  - intros H. unfold _process_pours. now rewrite H.
  - intros H. unfold _process_assembly_shapes. now rewrite H.
  - intros sheet v Hv Hfalsy. unfold process_sheet_shapes.
    rewrite Hv. cbn [bind try_except]. unfold py_or. rewrite Hfalsy.
    reflexivity.
  - intros sheet e He. unfold process_sheet_shapes.
    rewrite He. reflexivity.
Qed.

Lemma null_shapes_section_witness :
  let doc section :=
    VDict [("layout", VDict [(section, VDict [("shapes", VNone)])])] in
  _process_pours Sample.env (doc "pours") init_shapes = Raise TypeError
  /\ process_sheet_shapes Sample.env "conductor" (doc "conductor", init_shapes)
     = Ok (doc "conductor", init_shapes).
Proof.
  intros doc. split.
  - apply (proj1 (null_shapes_section Sample.env (doc "pours") init_shapes)).
    reflexivity.
  - apply (proj1 (proj2 (proj2 (null_shapes_section Sample.env
                                  (doc "conductor") init_shapes)))
                 "conductor" VNone); reflexivity.
Defined.

(** ** What is written on a declaration *)

(** X18.  One pad shape declaration [d], for a pin at [pin_loc_p] rotated by
    [pin_rotate].  When the run returns, with [held] the location and the
    rotation the declaration held when the run began: the declaration left
    behind is [d] with the location [pin_loc_p + held] and the rotation
    [held rotation + pin_rotate] written over them; and every conductor
    shape placed carries exactly these two and, for the rest, the attributes
    of [d], one shape per visit of a layer. *)
Theorem pad_shape_placement
        (env : Collaborators) (pin_name pin_dict : value) (pin_loc_p : point)
        (pin_rotate : value) (d : list (string * value)) (S S' : sheet_shapes)
        (decl' : value) :
  process_pad_shape env pin_name pin_dict pin_loc_p pin_rotate (VDict d) S
  = Ok (decl', S') ->
  exists held l r',
    as_point (field "location" origin d) = Ok held
    /\ point_add pin_loc_p held = Ok l
    /\ py_add (field "rotate" (VInt 0) d) pin_rotate = Ok r'
    /\ decl' = VDict (Dict.set "rotate" r' (Dict.set "location" (VPoint l) d))
    /\ forall layer, exists news,
        bucket S' "conductor" layer
        = (bucket S "conductor" layer ++ news)%list
        /\ List.length news
           = visits layer (getExtendedLayerList env
                             (field "layers" (VList [VStr "top"]) d))
        /\ Forall (fun sh =>
                     attr "location" sh = Some (VPoint l)
                     /\ attr "rotate" sh = Some r'
                     /\ forall k, k <> "location" -> k <> "rotate" ->
                                  attr k sh = Dict.get k d) news.
Proof.
  intros H.
  pose proof (conductor_shapes_of_declaration _ _ _ _ _ _ _ _ _ H) as Hcond.
  apply process_pad_shape_inv in H
    as (held & l & r' & Hheld & Hl & Hr & -> & _).
  exists held, l, r'. repeat split; auto.
  intros layer. destruct (Hcond layer) as (news & Hnews & Hall & Hlen).
  exists news. repeat split; auto.
  eapply Forall_impl; [|exact Hall].
  intros sh Hsh. unfold attr. rewrite Hsh. repeat split.
  - rewrite get_set_other by discriminate. apply get_set_same.
  - apply get_set_same.
  - intros k Hk1 Hk2. now rewrite !get_set_other by congruence.
Qed.

Lemma pad_shape_placement_witness :
  let d := (Sample.rect 1 1 ++ [("location", VList [VInt 1; VInt 0])])%list in
  let st := Sample.outcome
              (process_pad_shape Sample.env (VStr "P1") (VDict [])
                                 (mkPoint (NInt 10) (NInt 0)) (VInt 90)
                                 (VDict d) init_shapes) (VNone, []) in
  exists held l r',
    as_point (field "location" origin d) = Ok held
    /\ point_add (mkPoint (NInt 10) (NInt 0)) held = Ok l
    /\ py_add (field "rotate" (VInt 0) d) (VInt 90) = Ok r'
    /\ fst st = VDict (Dict.set "rotate" r' (Dict.set "location" (VPoint l) d))
    /\ forall layer, exists news,
        bucket (snd st) "conductor" layer
        = (bucket init_shapes "conductor" layer ++ news)%list
        /\ List.length news
           = visits layer (getExtendedLayerList Sample.env
                             (field "layers" (VList [VStr "top"]) d))
        /\ Forall (fun sh =>
                     attr "location" sh = Some (VPoint l)
                     /\ attr "rotate" sh = Some r'
                     /\ forall k, k <> "location" -> k <> "rotate" ->
                                  attr k sh = Dict.get k d) news.
Proof.
  intros d st.
  apply (pad_shape_placement Sample.env (VStr "P1") (VDict [])
           (mkPoint (NInt 10) (NInt 0)) (VInt 90) d init_shapes (snd st)
           (fst st)).
  vm_compute. reflexivity.
Defined.

Lemma truthy_py_or_True (m : value) : truthy (py_or m (VStr "True")) = true.
Proof. unfold py_or. destruct (truthy m) eqn:E; [exact E|reflexivity]. Qed.

Lemma import_layers_flagged (sheet : string) (d : list (string * value))
      (m : value) (layers : list string) :
  Dict.get "type" d = Some (VStr "text") ->
  Dict.get "mirror" d = Some m ->
  truthy m = true ->
  forall S,
    for_each (import_on_layer sheet) layers (VDict d, S)
    = Ok (VDict d, place_on_layers sheet (VDict d) layers S).
Proof.
  intros Htype Hm Htruthy.
  induction layers as [|layer layers IH]; intros S; [reflexivity|].
  assert (Hstep : import_on_layer sheet layer (VDict d, S)
                  = Ok (VDict d, append_shape sheet layer (Shape (VDict d)) S)).
  { destruct (string_dec layer "bottom") as [->|Hne].
    - rewrite import_on_layer_bottom_text by exact Htype.
      unfold field, py_or. rewrite Hm, Htruthy.
      now rewrite (set_get_id "mirror" m d Hm).
    - now apply import_on_layer_other. }
  cbn [for_each]. rewrite Hstep. cbn [bind]. now rewrite IH.
Qed.

(** X19.  Text imported by [_process_shapes] whose layers are [pre], then
    ["bottom"], then [post].  The layers of [pre] get the declaration as
    authored; at the bottom layer the mirror flag is written on the
    declaration (the authored flag when it counts as true, ["True"]
    otherwise), and the bottom layer and every layer of [post] get the
    declaration with that flag, which is also the declaration left in the
    document. *)
Theorem text_flagged_from_bottom_on
        (env : Collaborators) (sheet : string) (d : list (string * value))
        (pre post : list string) (S : sheet_shapes) :
  Dict.get "type" d = Some (VStr "text") ->
  ~ In "bottom" pre ->
  getExtendedLayerList env (py_or (field "layers" VNone d) (VList [VStr "top"]))
  = (pre ++ "bottom" :: post)%list ->
  let d' := Dict.set "mirror" (py_or (field "mirror" VNone d) (VStr "True")) d
  in
  import_sheet_shape env sheet (VDict d) S
  = Ok (VDict d',
        place_on_layers sheet (VDict d') ("bottom" :: post)
                        (place_on_layers sheet (VDict d) pre S)).
Proof.
  intros Htype Hpre Hlayers d'. unfold import_sheet_shape.
  cbn [py_get bind]. fold (field "layers" VNone d). rewrite Hlayers.
  rewrite for_each_app.
  rewrite import_layers_unchanged by (now right). cbn [bind for_each].
  rewrite import_on_layer_bottom_text by exact Htype. fold d'. cbn [bind].
  rewrite (import_layers_flagged sheet d'
             (py_or (field "mirror" VNone d) (VStr "True"))).
  - reflexivity.
  - unfold d'. now rewrite get_set_other by discriminate.
  - unfold d'. apply get_set_same.
  - apply truthy_py_or_True.
Qed.

Lemma text_flagged_from_bottom_on_witness :
  let d := [ ("type", VStr "text"); ("value", VStr "R1");
             ("layers", VList [VStr "top"; VStr "bottom"; VStr "top"]) ] in
  let d' := Dict.set "mirror" (VStr "True") d in
  import_sheet_shape Sample.env "silkscreen" (VDict d) init_shapes
  = Ok (VDict d',
        place_on_layers "silkscreen" (VDict d') ["bottom"; "top"]
                        (place_on_layers "silkscreen" (VDict d) ["top"]
                                         init_shapes)).
Proof.
  intros d d'.
  apply (text_flagged_from_bottom_on Sample.env "silkscreen" d ["top"] ["top"]
                                     init_shapes).
  - reflexivity.
  - simpl. intros [E|[]]. discriminate E.
  - reflexivity.
Defined.

(** ** The sections of the document *)

Lemma same_but_refl (ks : list string) (a : value) : same_but ks a a.
Proof. intros fa ->. exists fa. auto. Qed.

Lemma same_but_trans (ks : list string) (a b c : value) :
  same_but ks a b -> same_but ks b c -> same_but ks a c.
Proof.
  intros Hab Hbc fa Ha. destruct (Hab fa Ha) as (fb & Hb & Hk).
  destruct (Hbc fb Hb) as (fc & Hc & Hk').
  exists fc. split; [exact Hc|]. intros k Hout.
  now rewrite Hk', Hk.
Qed.

Lemma same_but_weaken (ks ks' : list string) (a b : value) :
  incl ks ks' -> same_but ks a b -> same_but ks' a b.
Proof.
  intros Hincl Hab fa Ha. destruct (Hab fa Ha) as (fb & Hb & Hk).
  exists fb. split; [exact Hb|]. intros k Hout. apply Hk.
  intros Hin. apply Hout. now apply Hincl.
Qed.

Lemma py_store_same_but (a v : value) (k0 : string) :
  same_but [k0] a (py_store a (VStr k0) v).
Proof.
  intros fa ->. cbn [py_store]. destruct (Dict.mem k0 fa).
  - eexists. split; [reflexivity|]. intros k Hout.
    apply get_set_other. intros ->. apply Hout. now left.
  - exists fa. auto.
Qed.

Lemma update_in_same_but (a v : value) (k0 : string) (rest : list string) :
  same_but [k0] a (update_in a (k0 :: rest) v).
Proof.
  intros fa ->. cbn [update_in]. destruct (Dict.get k0 fa).
  - eexists. split; [reflexivity|]. intros k Hout.
    apply get_set_other. intros ->. apply Hout. now left.
  - exists fa. auto.
Qed.

Lemma process_sheet_shapes_same_but (env : Collaborators) (sheet : string)
      (footprint footprint' : value) (S S' : sheet_shapes) :
  process_sheet_shapes env sheet (footprint, S) = Ok (footprint', S') ->
  same_but ["layout"] footprint footprint'.
Proof.
  unfold process_sheet_shapes. intros H. bind_inv H. bind_inv H.
  destruct x0 as [items' S1]. injection H as <- _.
  destruct (try_except _ _) as [| | | |[|y ys]| |];
    try apply same_but_refl.
  exact (update_in_same_but footprint (VList items') "layout"
                            [sheet; "shapes"]).
Qed.

Lemma _process_pins_same_but (env : Collaborators)
      (footprint footprint' : value) (S S' : sheet_shapes) :
  _process_pins env footprint S = Ok (footprint', S') ->
  same_but ["pads"] footprint footprint'.
Proof.
  unfold _process_pins. intros H. repeat bind_inv H.
  destruct x2 as [pads' S0]. injection H as <- _.
  exact (py_store_same_but footprint pads' "pads").
Qed.

Lemma _process_shapes_same_but (env : Collaborators)
      (footprint footprint' : value) (S S' : sheet_shapes) :
  _process_shapes env footprint S = Ok (footprint', S') ->
  same_but ["layout"] footprint footprint'.
Proof.
  unfold _process_shapes. cbn [for_each]. intros H.
  bind_inv H. destruct x as [fa Sa].
  bind_inv H. destruct x as [fb Sb].
  bind_inv H. destruct x as [fc Sc]. injection H as <- _.
  apply process_sheet_shapes_same_but in Hx, Hx0, Hx1.
  eapply same_but_trans; [exact Hx|].
  eapply same_but_trans; [exact Hx0|exact Hx1].
Qed.

(** X20.  The construction writes into the sections ["pads"] and
    ["layout"] of the document only: when it returns, the document it leaves
    is a dictionary in which every other section, ["pins"] among them, is as
    it was given. *)
Theorem construction_writes_pads_and_layout_only
        (env : Collaborators) (f : list (string * value)) (footprint' : value)
        (S' : sheet_shapes) :
  Footprint env (VDict f) = Ok (footprint', S') ->
  exists f',
    footprint' = VDict f'
    /\ forall k, k <> "pads" -> k <> "layout" -> Dict.get k f' = Dict.get k f.
Proof.
  unfold Footprint. intros H.
  bind_inv H. destruct x as [footprint1 S1].
  bind_inv H. bind_inv H. destruct x0 as [footprint3 S3].
  bind_inv H. injection H as <- _.
  pose proof (_process_pins_same_but _ _ _ _ _ Hx) as H1.
  pose proof (_process_shapes_same_but _ _ _ _ _ Hx1) as H3.
  assert (Hall : same_but ["pads"; "layout"] (VDict f) footprint3).
  { eapply same_but_trans.
    - eapply same_but_weaken; [|exact H1]. intros k [<-|[]]; simpl; auto.
    - eapply same_but_weaken; [|exact H3]. intros k [<-|[]]; simpl; auto. }
  destruct (Hall f eq_refl) as (f' & Hf' & Hk).
  exists f'. split; [exact Hf'|].
  intros k Hpads Hlayout. apply Hk. simpl.
  intros [E|[E|[]]]; congruence.
Qed.

Lemma construction_writes_pads_and_layout_only_witness :
  let f := match Sample.full with VDict f => f | _ => [] end in
  let st := Sample.outcome (Footprint Sample.env Sample.full) (VNone, []) in
  exists f',
    fst st = VDict f'
    /\ forall k, k <> "pads" -> k <> "layout" -> Dict.get k f' = Dict.get k f.
Proof.
  intros f st.
  apply (construction_writes_pads_and_layout_only Sample.env f (fst st)
                                                  (snd st)).
  vm_compute. reflexivity.
Defined.
